(** * mest_chat_logging: the chat session object and its turn logging

    A shallow embedding of [src/mest_chat_logging.py]: [initialize_client],
    [Chatbot.__init__], [Chatbot.chat], [main] with its two loops, and
    [setup_logging].

    Modelling choices.
    - The program is sequential Python with one mutable object (the
      [Chatbot]) and three effects: the wall clock, the logger and the
      model backend.  They are threaded through a state-and-exception monad
      [M]; [try_except] is Python's [try: ... except Exception as e: ...].
    - The backend and the clock are outside the repository.  They are the
      fields of the class [Environment]: the clock gives the n-th reading of
      [datetime.now()], the backend methods may answer or raise, and may
      depend on every request dispatched before (so a stateful or
      non-deterministic server is covered).
    - Calls on the logger and requests on the backend are recorded in one
      trace of events, in program order.
    - The log is the sequence of calls made on the logger
      ([logger.info(...)], [logger.error(...)]), each with the dictionary
      that the code serialises with [json.dumps].  Dictionaries are
      association lists in the order the code writes their keys.  Which of
      these calls the handlers of [setup_logging] write to the file and the
      console is decided inside the [logging] library by the logger's level
      threshold, which [setup_logging] does not set.  The properties of
      [chat] are stated on the calls; the delivery to the handlers is
      modelled apart, with [setup_logging], and nothing about [chat]
      depends on it.
    - Errors are the exceptions that [except Exception] catches.
      Asynchronous interrupts ([KeyboardInterrupt]) are not modelled. *)

From Stdlib Require Import ZArith QArith.QArith_base String List Bool Lia.
From stdpp Require Import base list strings.
Import ListNotations.

Local Open Scope string_scope.
Local Open Scope list_scope.

(** ** Data *)

(** A [datetime] is a number of microseconds; [isoformat] is kept abstract. *)
Definition datetime := Z.

(** [(end_time - start_time).total_seconds()]: the difference in
    microseconds over 10^6 (Python rounds the quotient to a double). *)
Definition total_seconds (delta : Z) : Q := Qmake delta 1000000.

(** Values handed to [json.dumps]. *)
#[warnings="-register-all"]
Inductive json : Type :=
| JNull
| JStr (s : string)
| JInt (z : Z)
| JFloat (q : Q)
| JObj (items : list (string * json)).

(** [d[k]] on an association list: the first binding of [k]. *)
Fixpoint assoc (k : string) (items : list (string * json)) : option json :=
  match items with
  | [] => None
  | (k', v) :: rest => if String.eqb k k' then Some v else assoc k rest
  end.

Definition get (k : string) (j : json) : option json :=
  match j with
  | JObj items => assoc k items
  | _ => None
  end.

(** [entry["metadata"][k]]. *)
Definition metadata (k : string) (entry : json) : option json :=
  match get "metadata" entry with
  | Some m => get k m
  | None => None
  end.

(** [d[k] = v] as a dictionary update: replaces the first binding of [k]. *)
Fixpoint assoc_set (k : string) (v : json) (items : list (string * json))
  : list (string * json) :=
  match items with
  | [] => [(k, v)]
  | (k', v') :: rest =>
      if String.eqb k k' then (k, v) :: rest else (k', v') :: assoc_set k v rest
  end.

Definition set_key (k : string) (v : json) (j : json) : json :=
  match j with
  | JObj items => JObj (assoc_set k v items)
  | _ => j
  end.

(** An element of [self.message]: [{"role": ..., "content": ...}]. *)
Record Message : Type := { role : string; content : string }.

Record Exception : Type := { exc_type : string; exc_message : string }.

(** [str(e)]. *)
Definition str (e : Exception) : string := exc_message e.

Inductive result (A : Type) : Type :=
| Ok (a : A)
| Raise (e : Exception).
Arguments Ok {A} a.
Arguments Raise {A} e.

Definition is_Ok {A} (r : result A) : bool :=
  match r with Ok _ => true | Raise _ => false end.

(** The handle returned by [initialize_client]. *)
Inductive Client : Type :=
| GenerativeModel (api_key : option string) (model : string)
| OpenAI (base_url : option string) (api_key : option string).

(** The [usage] attribute of a completion response: missing
    ([hasattr] is false), present and [None], or present with
    [total_tokens]. *)
Inductive Usage : Type :=
| usage_missing
| usage_None
| usage_total (total_tokens : Z).

(** A completion response: [choices] holds [choice.message.content] of
    every choice. *)
Record ChatCompletion : Type := { choices : list string; usage : Usage }.

(** A generative response: reading [response.text] may raise. *)
Record GenerateContentResponse : Type := { text : result string }.

Inductive Response : Type :=
| generated (r : GenerateContentResponse)
| completion (r : ChatCompletion).

(** A request made on the client. *)
Inductive BackendCall : Type :=
| call_start_chat (c : Client) (history : list Message)
| call_send_message (c : Client) (content : string)
| call_create (c : Client) (model : string) (messages : list Message).

Inductive Level : Type := INFO | ERROR.

(** One call on the logger: the method and the dictionary it is given. *)
Record LogCall : Type := { levelno : Level; entry : json }.

Record Chatbot : Type := {
  session_id : string;
  user_id : string;
  client : Client;
  use_ollama : bool;
  use_gemini : bool;
  model_name : string;
  message : list Message
}.

(** What happens outside the object, in program order. *)
Inductive Event : Type :=
| Logged (c : LogCall)
| Dispatched (c : BackendCall).

(** How many clock readings and random tokens were drawn so far, and the
    trace of events. *)
Record World : Type := {
  ticks : nat;
  drawn : nat;
  events : list Event
}.

(** The calls on the logger in a trace, and the requests on the backend. *)
Fixpoint log_of (evs : list Event) : list LogCall :=
  match evs with
  | [] => []
  | Logged c :: rest => c :: log_of rest
  | Dispatched _ :: rest => log_of rest
  end.

Fixpoint requests_of (evs : list Event) : list BackendCall :=
  match evs with
  | [] => []
  | Logged _ :: rest => requests_of rest
  | Dispatched c :: rest => c :: requests_of rest
  end.

Definition logged (w : World) : list LogCall := log_of (events w).
Definition dispatched (w : World) : list BackendCall := requests_of (events w).

Definition emit (ev : Event) (w : World) : World :=
  {| ticks := ticks w; drawn := drawn w; events := events w ++ [ev] |}.

Definition State : Type := Chatbot * World.

(** ** The state-and-exception monad *)

Definition M (A : Type) : Type := State -> result A * State.

Definition ret {A} (a : A) : M A := fun st => (Ok a, st).

Definition bind {A B} (m : M A) (k : A -> M B) : M B :=
  fun st =>
    match m st with
    | (Ok a, st') => k a st'
    | (Raise e, st') => (Raise e, st')
    end.

Definition raise {A} (e : Exception) : M A := fun st => (Raise e, st).

Definition lift {A} (r : result A) : M A := fun st => (r, st).

(** [try: body  except Exception as e: handler e]. *)
Definition try_except {A} (body : M A) (handler : Exception -> M A) : M A :=
  fun st =>
    match body st with
    | (Ok a, st') => (Ok a, st')
    | (Raise e, st') => handler e st'
    end.

Declare Scope py_scope.
Delimit Scope py_scope with py.
Notation "x <- m ;; k" := (bind m (fun x => k))
  (at level 100, m at next level, right associativity) : py_scope.
Notation "m ;; k" := (bind m (fun _ => k))
  (at level 100, right associativity) : py_scope.
Local Open Scope py_scope.

(** Reading [self]: the object as it is now. *)
Definition get_self : M Chatbot := fun st => (Ok (fst st), st).

(** [self.message.append(m)]. *)
Definition message_append (m : Message) : M unit :=
  fun st =>
    let self := fst st in
    (Ok tt,
     ({| session_id := session_id self; user_id := user_id self;
         client := client self; use_ollama := use_ollama self;
         use_gemini := use_gemini self; model_name := model_name self;
         message := message self ++ [m] |}, snd st)).

Definition log_call (l : Level) (e : json) : M unit :=
  fun st =>
    (Ok tt, (fst st, emit (Logged {| levelno := l; entry := e |}) (snd st))).

(** [self.logger.info(json.dumps(e))] and [self.logger.error(json.dumps(e))]. *)
Definition logger_info (e : json) : M unit := log_call INFO e.
Definition logger_error (e : json) : M unit := log_call ERROR e.

(** A request: it is recorded, and answered from the requests before it. *)
Definition dispatch {A} (c : BackendCall)
    (answer : list BackendCall -> result A) : M A :=
  fun st =>
    (answer (dispatched (snd st)), (fst st, emit (Dispatched c) (snd st))).

(** [response.choices[0].message.content]. *)
Definition first_choice (r : ChatCompletion) : M string :=
  match choices r with
  | c :: _ => ret c
  | [] => raise {| exc_type := "IndexError";
                   exc_message := "list index out of range" |}
  end.

(** [hasattr(response, 'usage')]. *)
Definition hasattr_usage (r : Response) : bool :=
  match r with
  | generated _ => false
  | completion c =>
      match usage c with usage_missing => false | _ => true end
  end.

(** [response.usage.total_tokens]. *)
Definition usage_total_tokens (r : Response) : M json :=
  match r with
  | completion c =>
      match usage c with
      | usage_total n => ret (JInt n)
      | usage_None =>
          raise {| exc_type := "AttributeError";
                   exc_message :=
                     "'NoneType' object has no attribute 'total_tokens'" |}
      | usage_missing =>
          raise {| exc_type := "AttributeError";
                   exc_message := "object has no attribute 'usage'" |}
      end
  | generated _ =>
      raise {| exc_type := "AttributeError";
               exc_message := "object has no attribute 'usage'" |}
  end.

(** ** What the program takes from outside *)

Class Environment : Type := {
  (** [os.getenv] *)
  getenv : string -> option string;
  (** [str(uuid.uuid4())]: the n-th random token of the process *)
  uuid4 : nat -> string;
  (** [datetime.now()]: the n-th reading of the clock *)
  clock : nat -> datetime;
  isoformat : datetime -> string;
  (** the backend; every method sees the requests dispatched before it *)
  start_chat : list BackendCall -> Client -> list Message -> result unit;
  send_message :
    list BackendCall -> Client -> string -> result GenerateContentResponse;
  completions_create :
    list BackendCall -> Client -> string -> list Message ->
    result ChatCompletion
}.

Section Program.

Context `{Environment}.

(** ** [initialize_client] *)

(** The handle that [initialize_client] asks for, with the arguments it
    passes.  Whether the constructor builds it is [build], below. *)
Definition initialize_client (use_ollama use_gemini : bool) : Client :=
  if use_gemini then
    GenerativeModel (getenv "GEMINI_API_KEY") "gemini-2.5-flash"
  else if use_ollama then
    OpenAI (Some "http://localhost:11434/v1") (Some "ollama")
  else
    OpenAI None (getenv "OPEN_API_KEY").

(** The model that a request on the handle runs: the one the generative
    handle was built with, or the [model] argument of
    [chat.completions.create]. *)
Definition invoked_model (c : BackendCall) : option string :=
  match c with
  | call_start_chat (GenerativeModel _ m) _ => Some m
  | call_send_message (GenerativeModel _ m) _ => Some m
  | call_create _ m _ => Some m
  | _ => None
  end.

Definition draw (w : World) : string * World :=
  (uuid4 (drawn w),
   {| ticks := ticks w; drawn := S (drawn w); events := events w |}).

Definition system_message : Message :=
  {| role := "system";
     content :=
       "You are a helpful assistant that can answer questions and help with task." |}.

(** [Chatbot.__init__]. *)
Definition __init__ (use_ollama use_gemini : bool) (w : World) : State :=
  let '(sid, w1) := draw w in
  let '(uid, w2) := draw w1 in
  ({| session_id := sid;
      user_id := uid;
      client := initialize_client use_ollama use_gemini;
      use_ollama := use_ollama;
      use_gemini := use_gemini;
      model_name :=
        if use_gemini then "gemini-1.5-flash"
        else if negb use_ollama then "gpt-4o-mini" else "llama3.2:8b";
      message := [system_message] |}, w2).

(** ** The menu of [main] *)

(** [choice in ["1", "2", "3"]]. *)
Definition valid_choice (choice : string) : bool :=
  String.eqb choice "1" || String.eqb choice "2" || String.eqb choice "3".

(** The [while True] loop of the menu over the lines typed (each already
    stripped): the first valid one, if any is typed. *)
Fixpoint read_choice (lines : list string) : option string :=
  match lines with
  | [] => None
  | choice :: rest =>
      if valid_choice choice then Some choice else read_choice rest
  end.

(** The [Chatbot] that [main] has after [Chatbot(use_ollama, use_gemini)],
    when the handle is built. *)
Definition main_chatbot (choice : string) (w : World) : State :=
  let use_ollama := String.eqb choice "2" in
  let use_gemini := String.eqb choice "3" in
  __init__ use_ollama use_gemini w.

(** ** Building the handle

    The constructor [OpenAI(...)] refuses to build a client without a key:
    when its [api_key] argument is [None] it takes OPENAI_API_KEY from the
    environment, and when that is not set either it raises [OpenAIError].
    [genai.configure] and [genai.GenerativeModel] take a missing key as it
    is. *)
Definition OpenAIError : Exception :=
  {| exc_type := "OpenAIError";
     exc_message :=
       "The api_key client option must be set either by passing api_key to the client or by setting the OPENAI_API_KEY environment variable" |}.

Definition build (c : Client) : result Client :=
  match c with
  | OpenAI _ None =>
      match getenv "OPENAI_API_KEY" with
      | Some _ => Ok c
      | None => Raise OpenAIError
      end
  | _ => Ok c
  end.

(** [Chatbot(use_ollama, use_gemini)]: the object that [__init__] sets up,
    or the error that [initialize_client] raises out of [__init__], before
    any attribute after [self.user_id] is assigned. *)
Definition new_Chatbot (use_ollama use_gemini : bool) (w : World)
  : result State :=
  match build (initialize_client use_ollama use_gemini) with
  | Ok _ => Ok (__init__ use_ollama use_gemini w)
  | Raise e => Raise e
  end.

(** ** [Chatbot.chat] *)

Definition now : M datetime :=
  fun st =>
    let w := snd st in
    (Ok (clock (ticks w)),
     (fst st,
      {| ticks := S (ticks w); drawn := drawn w; events := events w |})).

Definition client_start_chat (c : Client) (history : list Message) : M unit :=
  dispatch (call_start_chat c history) (fun past => start_chat past c history).

Definition chat_send_message (c : Client) (content : string)
  : M GenerateContentResponse :=
  dispatch (call_send_message c content)
           (fun past => send_message past c content).

Definition client_chat_completions_create (c : Client) (model : string)
    (messages : list Message) : M ChatCompletion :=
  dispatch (call_create c model messages)
           (fun past => completions_create past c model messages).

Definition user_input_entry (timestamp : datetime) (self : Chatbot) : json :=
  JObj [("timestamp", JStr (isoformat timestamp));
        ("level", JStr "INFO");
        ("type", JStr "user_input");
        ("metadata",
          JObj [("user_id", JStr (user_id self));
                ("session_id", JStr (session_id self));
                ("model", JStr (model_name self))])].

Definition model_response_entry (timestamp : datetime) (self : Chatbot)
    (assistant_response : string) (response_time : Q) (tokens_used : json)
  : json :=
  JObj [("timestamp", JStr (isoformat timestamp));
        ("level", JStr "INFO");
        ("type", JStr "model_response");
        ("model_response", JStr assistant_response);
        ("metadata",
          JObj [("session_id", JStr (session_id self));
                ("model", JStr (model_name self));
                ("response_time", JFloat response_time);
                ("tokens_used", tokens_used)])].

Definition error_entry (timestamp : datetime) (self : Chatbot)
    (e : Exception) : json :=
  JObj [("timestamp", JStr (isoformat timestamp));
        ("level", JStr "ERROR");
        ("type", JStr "error");
        ("error_message", JStr (str e));
        ("metadata",
          JObj [("session_id", JStr (session_id self));
                ("model", JStr (model_name self));
                ("user_id", JStr (user_id self))])].

(** The [if self.use_gemini: ... else: ...] of the [try] block: the
    response and [assistant_response]. *)
Definition ask (user_input : string) : M (Response * string) :=
  self <- get_self ;;
  if use_gemini self then
    client_start_chat (client self) [] ;;
    response <- chat_send_message (client self) user_input ;;
    assistant_response <- lift (text response) ;;
    ret (generated response, assistant_response)
  else
    response <-
      client_chat_completions_create
        (client self) (model_name self) (message self) ;;
    assistant_response <- first_choice response ;;
    ret (completion response, assistant_response).

(** The body of the [try] block. *)
Definition chat_try (user_input : string) : M string :=
  timestamp <- now ;;
  self <- get_self ;;
  logger_info (user_input_entry timestamp self) ;;
  message_append {| role := "user"; content := user_input |} ;;
  start_time <- now ;;
  answer <- ask user_input ;;
  let '(response, assistant_response) := answer in
  end_time <- now ;;
  let response_time := total_seconds (end_time - start_time) in
  timestamp <- now ;;
  self <- get_self ;;
  tokens_used <-
    (if negb (use_gemini self) && hasattr_usage response
     then usage_total_tokens response
     else ret JNull) ;;
  logger_info
    (model_response_entry timestamp self
       assistant_response response_time tokens_used) ;;
  message_append {| role := "assistant"; content := assistant_response |} ;;
  ret assistant_response.

(** The [except Exception as e] block. *)
Definition chat_except (e : Exception) : M string :=
  timestamp <- now ;;
  self <- get_self ;;
  logger_error (error_entry timestamp self e) ;;
  ret (String.append
         "Sorry, something evil happened in the universe: " (str e)).

Definition chat (user_input : string) : M string :=
  try_except (chat_try user_input) chat_except.

(** ** Repeated calls *)

(** One call of the chat loop: the input, whether the [try] block ran to
    its [return], and what [chat] gave back. *)
Record Turn : Type := {
  turn_input : string;
  succeeded : bool;
  reply : result string
}.

Definition turn (user_input : string) (st : State) : Turn * State :=
  ({| turn_input := user_input;
      succeeded := is_Ok (fst (chat_try user_input st));
      reply := fst (chat user_input st) |},
   snd (chat user_input st)).

(** [chat] on each input in order, on the same object. *)
Fixpoint session (inputs : list string) (st : State) : list Turn * State :=
  match inputs with
  | [] => ([], st)
  | user_input :: rest =>
      let (t, st1) := turn user_input st in
      let (ts, st2) := session rest st1 in
      (t :: ts, st2)
  end.

(** ** Reading the log *)

(** [entry["type"] == t]. *)
Definition has_type (t : string) (c : LogCall) : bool :=
  match get "type" (entry c) with
  | Some (JStr s) => String.eqb s t
  | _ => false
  end.

Definition count_type (t : string) (l : list LogCall) : nat :=
  length (List.filter (has_type t) l).

(** [needle in s]. *)
Definition contains (s needle : string) : Prop :=
  exists before after,
    s = String.append before (String.append needle after).

Definition user_message (user_input : string) : Message :=
  {| role := "user"; content := user_input |}.

Definition assistant_message (assistant_response : string) : Message :=
  {| role := "assistant"; content := assistant_response |}.

(** The messages that a turn leaves in the history. *)
Definition turn_messages (t : Turn) : list Message :=
  match reply t with
  | Ok r =>
      if succeeded t then
        [user_message (turn_input t); assistant_message r]
      else [user_message (turn_input t)]
  | Raise _ => []
  end.

(** The user message and the assistant message of an exchange. *)
Definition exchange (p : string * string) : list Message :=
  [user_message (fst p); assistant_message (snd p)].

End Program.

(** ** Stub environments

    A backend that gives the same answer to every request, an empty
    process environment, a clock that advances one second per reading. *)

Definition stub (answer : result ChatCompletion)
    (generation : result GenerateContentResponse) : Environment :=
  {| getenv := fun _ => None;
     uuid4 := fun n => match n with
                       | O => "6f1c5a52-session"
                       | _ => "0b9d3e17-user"
                       end;
     clock := fun n => (Z.of_nat n * 1000000)%Z;
     isoformat := fun _ => "2024-05-01T12:00:00";
     start_chat := fun _ _ _ => Ok tt;
     send_message := fun _ _ _ => generation;
     completions_create := fun _ _ _ _ => answer |}.

(** The backend of the end-to-end scenario: it replies "hi there" and
    reports no usage. *)
Definition hi_there : Environment :=
  stub (Ok {| choices := ["hi there"]; usage := usage_missing |})
       (Ok {| text := Ok "hi there" |}).



(** The backend of the failure scenario: every request raises. *)
Definition rate_limited : Environment :=
  stub (Raise {| exc_type := "RateLimitError"; exc_message := "rate limited" |})
       (Raise {| exc_type := "ResourceExhausted";
                 exc_message := "rate limited" |}).

Definition fresh_world : World := {| ticks := 0; drawn := 0; events := [] |}.

(** ** [main]: the console and the two loops *)

(** [str.strip()] and [str.lower()], the string methods of the runtime that
    [main] applies to what is typed.  They are kept abstract. *)
Class StrMethods : Type := {
  strip : string -> string;
  lower : string -> string
}.

(** What the program writes on the terminal: a [print(s)] or the prompt of
    an [input(s)]. *)
Inductive Output : Type :=
| print (s : string)
| prompt (s : string).

(** The newline character of the string literals. *)
Definition nl : string := String (Ascii.ascii_of_nat 10) "".

(** [input(...)] when the standard input is exhausted. *)
Definition EOFError : Exception :=
  {| exc_type := "EOFError"; exc_message := "EOF when reading a line" |}.

Section Console.

Context `{Environment} `{StrMethods}.

(** The first [while True] of [main], on the lines still to be read: the
    choice, the lines left and what was written. *)
Fixpoint menu (lines : list string) (out : list Output)
  : result string * list string * list Output :=
  match lines with
  | [] => (Raise EOFError, [], out ++ [prompt "enter choice (1, 2, or 3): "])
  | line :: rest =>
      let out := out ++ [prompt "enter choice (1, 2, or 3): "] in
      let choice := strip line in
      if valid_choice choice then (Ok choice, rest, out)
      else menu rest (out ++ [print "Please enter 1, 2, or 3"])
  end.

(** The second [while True] of [main]. *)
Fixpoint chat_loop (lines : list string) (st : State) (out : list Output)
  : result unit * State * list Output :=
  match lines with
  | [] => (Raise EOFError, st, out ++ [prompt "You: "])
  | line :: rest =>
      let out := out ++ [prompt "You: "] in
      let user_input := strip line in
      if String.eqb (lower user_input) "exit" then
        (Ok tt, st, out ++ [print "Goodbye!"])
      else if String.eqb user_input "" then
        chat_loop rest st out
      else
        match chat user_input st with
        | (Ok response, st') =>
            chat_loop rest st'
              (out ++ [print (String.append "Bot: "
                                (String.append response nl))])
        | (Raise e, st') => (Raise e, st', out)
        end
  end.

(** The [model_type] of the banner. *)
Definition model_type (use_ollama use_gemini : bool) : string :=
  if use_gemini then "Gemini" else if use_ollama then "Ollama" else "OpenAI".

(** [main()] on the lines of the standard input: how it ends, the [Chatbot]
    and the world it leaves if one was constructed, and what it wrote.  An
    error of [Chatbot(...)] leaves [main] before the banner. *)
Definition main (lines : list string) (w : World)
  : result unit * option State * list Output :=
  let out :=
    [print (String.append nl "Select Model Type:");
     print "1. OpenAI GPT-4";
     print "2. Ollama Llama 3.2";
     print "3. Google Gemini"] in
  match menu lines out with
  | (Raise e, _, out) => (Raise e, None, out)
  | (Ok choice, rest, out) =>
      let use_ollama := String.eqb choice "2" in
      let use_gemini := String.eqb choice "3" in
      match new_Chatbot use_ollama use_gemini w with
      | Raise e => (Raise e, None, out)
      | Ok chatbot =>
          let out :=
            out ++
            [print (String.append nl "===Chat Session Started===");
             print (String.append "Using "
                      (String.append (model_type use_ollama use_gemini)
                         " model"));
             print (String.append "Type 'exit' to end the conversation" nl);
             print (String.append "Session ID: " (session_id (fst chatbot)))]
          in
          match chat_loop rest chatbot out with
          | (r, st, out) => (r, Some st, out)
          end
      end
  end.

(** The texts that the second loop passes to [chat]: what is typed before
    the first "exit", stripped, blank lines left out. *)
Fixpoint turns_typed (lines : list string) : list string :=
  match lines with
  | [] => []
  | line :: rest =>
      if String.eqb (lower (strip line)) "exit" then []
      else if String.eqb (strip line) "" then turns_typed rest
      else strip line :: turns_typed rest
  end.

(** Whether "exit" is typed. *)
Definition exit_typed (lines : list string) : bool :=
  existsb (fun line => String.eqb (lower (strip line)) "exit") lines.

End Console.

(** String methods for the examples: [strip] and [lower] on ASCII text. *)
Definition isspace (c : Ascii.ascii) : bool :=
  let n := Ascii.nat_of_ascii c in
  Nat.eqb n 32 || (Nat.leb 9 n && Nat.leb n 13) ||
  (Nat.leb 28 n && Nat.leb n 31).

Fixpoint lstrip (s : string) : string :=
  match s with
  | EmptyString => EmptyString
  | String c rest => if isspace c then lstrip rest else s
  end.

Fixpoint rstrip (s : string) : string :=
  match s with
  | EmptyString => EmptyString
  | String c rest =>
      match rstrip rest with
      | EmptyString => if isspace c then EmptyString else String c EmptyString
      | kept => String c kept
      end
  end.

Definition lower_char (c : Ascii.ascii) : Ascii.ascii :=
  let n := Ascii.nat_of_ascii c in
  if Nat.leb 65 n && Nat.leb n 90 then Ascii.ascii_of_nat (n + 32) else c.

Fixpoint lower_ascii (s : string) : string :=
  match s with
  | EmptyString => EmptyString
  | String c rest => String (lower_char c) (lower_ascii rest)
  end.

Definition ascii_methods : StrMethods :=
  {| strip := fun s => rstrip (lstrip s); lower := lower_ascii |}.

(** The lines that were printed, and the line that the second loop prints
    for a turn. *)
Definition printed (out : list Output) : list string :=
  flat_map (fun o => match o with print s => [s] | prompt _ => [] end) out.

Definition bot_line (t : Turn) : list string :=
  match reply t with
  | Ok response => [String.append "Bot: " (String.append response nl)]
  | Raise _ => []
  end.

(** A completion backend whose responses carry [usage = None], and one
    whose responses have no choice. *)
Definition usage_is_None : Environment :=
  stub (Ok {| choices := ["hi there"]; usage := usage_None |})
       (Ok {| text := Ok "hi there" |}).

Definition no_choices : Environment :=
  stub (Ok {| choices := []; usage := usage_missing |})
       (Ok {| text := Ok "hi there" |}).

(** ** [setup_logging] and the delivery of records

    The [logging] library keeps one logger per name, so every call of
    [setup_logging] works on the same logger "Chatbot".  A logger hands a
    record to its handlers when the level of the record is at least its
    effective level: its own level, or, while that is [NOTSET], the level of
    the root logger.  The root level belongs to the process, not to this
    file; it is a parameter below ([WARNING] unless the process changes
    it).  Handlers that the process may have put on the root logger are
    not included, and [logging.disable] is not used. *)

Definition NOTSET : Z := 0.
Definition WARNING : Z := 30.

(** [logging.INFO] and [logging.ERROR]. *)
Definition level_number (l : Level) : Z :=
  match l with INFO => 20 | ERROR => 40 end.

(** Where a handler writes: [logging.FileHandler(filename)] or
    [logging.StreamHandler()]. *)
Inductive Sink : Type :=
| FileHandler (filename : string)
| StreamHandler.

Record Handler : Type := {
  sink : Sink;
  formatter : string;
  handler_level : Z
}.

Record Logger : Type := {
  logger_level : Z;
  handlers : list Handler
}.

(** The logger that [logging.getLogger("Chatbot")] creates the first time. *)
Definition new_logger : Logger := {| logger_level := NOTSET; handlers := [] |}.

(** [setup_logging()], on the logger "Chatbot" as it is. *)
Definition setup_logging (logger : Logger) : Logger :=
  let file_handler :=
    {| sink := FileHandler "chatbot_logs.json";
       formatter := "%(message)s";
       handler_level := NOTSET |} in
  let console_handler :=
    {| sink := StreamHandler;
       formatter := "%(asctime)s - %(levelname)s - %(message)s";
       handler_level := NOTSET |} in
  {| logger_level := logger_level logger;
     handlers := handlers logger ++ [file_handler; console_handler] |}.

(** [Logger.getEffectiveLevel()]. *)
Definition getEffectiveLevel (root_level : Z) (logger : Logger) : Z :=
  if Z.eqb (logger_level logger) NOTSET then root_level
  else logger_level logger.

(** [Logger.isEnabledFor(level)]. *)
Definition isEnabledFor (root_level : Z) (logger : Logger) (l : Level) : bool :=
  Z.leb (getEffectiveLevel root_level logger) (level_number l).

(** One call on the logger: the handlers that receive the record. *)
Definition handle (root_level : Z) (logger : Logger) (c : LogCall)
  : list (Handler * LogCall) :=
  if isEnabledFor root_level logger (levelno c) then
    map (fun h => (h, c))
      (List.filter (fun h => Z.leb (handler_level h) (level_number (levelno c)))
         (handlers logger))
  else [].

(** What a sequence of calls on the logger delivers, in order. *)
Definition delivered (root_level : Z) (logger : Logger) (calls : list LogCall)
  : list (Handler * LogCall) :=
  flat_map (handle root_level logger) calls.

(** The records appended to a file. *)
Definition file_records (filename : string) (d : list (Handler * LogCall))
  : list LogCall :=
  map snd
    (List.filter
       (fun p => match sink (fst p) with
                 | FileHandler f => String.eqb f filename
                 | StreamHandler => false
                 end) d).

(** ** Further readings of a run *)

(** The message lists of the [create] requests that a run of turns makes,
    starting from a history. *)
Fixpoint contexts (history : list Message) (turns : list Turn)
  : list (list Message) :=
  match turns with
  | [] => []
  | t :: rest =>
      (history ++ [user_message (turn_input t)])
        :: contexts (history ++ turn_messages t) rest
  end.

(** A request goes to a handle of its kind: [start_chat] and
    [send_message] to a generative model, [create] to an OpenAI client. *)
Definition well_addressed (c : BackendCall) : bool :=
  match c with
  | call_start_chat (GenerativeModel _ _) _ => true
  | call_send_message (GenerativeModel _ _) _ => true
  | call_create (OpenAI _ _) _ _ => true
  | _ => false
  end.

(** In a history, every assistant message comes right after a user
    message. *)
Fixpoint answers_follow_questions (after_user : bool) (l : list Message)
  : bool :=
  match l with
  | [] => true
  | m :: rest =>
      if String.eqb (role m) "assistant" then
        after_user && answers_follow_questions false rest
      else answers_follow_questions (String.eqb (role m) "user") rest
  end.

(** * Properties *)

Lemma log_of_app (l1 l2 : list Event) :
  log_of (l1 ++ l2) = log_of l1 ++ log_of l2.
Proof.
  induction l1 as [|[c|c] l1 IH]; simpl; [reflexivity| |assumption].
  now rewrite IH.
Qed.

Lemma requests_of_app (l1 l2 : list Event) :
  requests_of (l1 ++ l2) = requests_of l1 ++ requests_of l2.
Proof.
  induction l1 as [|[c|c] l1 IH]; simpl; [reflexivity|assumption|].
  now rewrite IH.
Qed.

Lemma append_empty (s : string) : String.append s "" = s.
Proof.
  induction s as [|a s IH]; [reflexivity|].
  change (String a (String.append s "") = String a s). now rewrite IH.
Qed.

Lemma contains_suffix (before needle : string) :
  contains (String.append before needle) needle.
Proof. exists before, "". now rewrite append_empty. Qed.

Lemma log_free_requests (l : list Event) (c : LogCall) :
  requests_of (l ++ [Logged c]) = requests_of l.
Proof. rewrite requests_of_app. cbn. apply app_nil_r. Qed.

(** Unfolds one call of [chat] down to the answers of the backend. *)
Ltac unfold_chat :=
  unfold turn, chat, try_except, chat_try, chat_except, ask, now, get_self,
    logger_info, logger_error, log_call, message_append, client_start_chat,
    chat_send_message, client_chat_completions_create, dispatch, first_choice,
    usage_total_tokens, hasattr_usage, emit, lift, raise, ret, bind in *;
  cbn [fst snd session_id user_id client use_ollama use_gemini model_name
       message ticks drawn events negb andb] in *.

(** Splits on the next answer that decides the control flow. *)
Ltac next_case :=
  match goal with
  | |- context [match ?x with _ => _ end] =>
      lazymatch x with
      | context [match _ with _ => _ end] => fail
      | _ => destruct x eqn:?
      end
  | H : context [match ?x with _ => _ end] |- _ =>
      lazymatch x with
      | context [match _ with _ => _ end] => fail
      | _ => destruct x eqn:?
      end
  end;
  cbn [fst snd session_id user_id client use_ollama use_gemini model_name
       message ticks drawn events negb andb is_Ok] in *.

Ltac chat_cases := unfold_chat; repeat next_case.

Section Properties.

Context `{Environment}.

(** *** One call *)

(** [chat] never raises: whatever the backend does, it returns a string. *)
Lemma chat_returns (user_input : string) (st : State) :
  exists s, fst (chat user_input st) = Ok s.
Proof.
  destruct st as [self w]. chat_cases.
  all: eexists; reflexivity.
Qed.

(** When the [try] block reaches its [return], [chat] returns its value and
    the history has gained the user message and the assistant message. *)
Lemma chat_try_ok (user_input : string) (st : State) (r : string) :
  fst (chat_try user_input st) = Ok r ->
  chat user_input st = chat_try user_input st /\
  message (fst (snd (chat user_input st))) =
    message (fst st) ++ [user_message user_input; assistant_message r].
Proof.
  destruct st as [self w]. unfold user_message, assistant_message.
  chat_cases.
  all: intros Hr; try discriminate Hr.
  all: injection Hr as <-; split; [reflexivity|].
  all: now rewrite <- app_assoc.
Qed.

(** When the [try] block raises, the history has gained the user message
    only. *)
Lemma chat_try_raise (user_input : string) (st : State) (e : Exception) :
  fst (chat_try user_input st) = Raise e ->
  message (fst (snd (chat user_input st))) =
    message (fst st) ++ [user_message user_input].
Proof.
  destruct st as [self w]. unfold user_message.
  chat_cases.
  all: intros Hr; try discriminate Hr; reflexivity.
Qed.

(** [chat] assigns no attribute of [self]: all but the content of
    [self.message] are as before, and no random token is drawn. *)
Lemma chat_frame (user_input : string) (st : State) :
  let st' := snd (chat user_input st) in
  session_id (fst st') = session_id (fst st) /\
  user_id (fst st') = user_id (fst st) /\
  client (fst st') = client (fst st) /\
  use_ollama (fst st') = use_ollama (fst st) /\
  use_gemini (fst st') = use_gemini (fst st) /\
  model_name (fst st') = model_name (fst st) /\
  drawn (snd st') = drawn (snd st).
Proof.
  destruct st as [self w]. chat_cases.
  all: repeat split; reflexivity.
Qed.

Lemma turn_history (user_input : string) (st : State) :
  message (fst (snd (turn user_input st))) =
    message (fst st) ++ turn_messages (fst (turn user_input st)).
Proof.
  unfold turn, turn_messages.
  cbn [fst snd reply succeeded turn_input].
  destruct (fst (chat_try user_input st)) as [r|e] eqn:Htry.
  - destruct (chat_try_ok _ _ _ Htry) as [Heq Hm].
    rewrite Hm, Heq, Htry. reflexivity.
  - rewrite (chat_try_raise _ _ _ Htry).
    destruct (chat_returns user_input st) as [s ->]. reflexivity.
Qed.

Lemma turn_reply (user_input : string) (st : State) :
  exists r, reply (fst (turn user_input st)) = Ok r.
Proof. apply chat_returns. Qed.

(** *** Sequences of calls *)

Lemma session_cons (user_input : string) (rest : list string) (st : State) :
  session (user_input :: rest) st =
    (fst (turn user_input st) :: fst (session rest (snd (turn user_input st))),
     snd (session rest (snd (turn user_input st)))).
Proof.
  cbn [session].
  destruct (turn user_input st) as [t st1]. cbn [fst snd].
  destruct (session rest st1) as [ts st2]. reflexivity.
Qed.

Lemma session_app (l1 l2 : list string) (st : State) :
  session (l1 ++ l2) st =
    (fst (session l1 st) ++ fst (session l2 (snd (session l1 st))),
     snd (session l2 (snd (session l1 st)))).
Proof.
  revert st. induction l1 as [|i l1 IH]; intros st.
  - cbn [app session fst snd]. now destruct (session l2 st).
  - rewrite <- app_comm_cons, !session_cons, IH. reflexivity.
Qed.

Lemma session_inputs (inputs : list string) (st : State) :
  map turn_input (fst (session inputs st)) = inputs.
Proof.
  revert st. induction inputs as [|i l IH]; intros st; [reflexivity|].
  rewrite session_cons. cbn [fst map]. now rewrite IH.
Qed.

Lemma session_history (inputs : list string) (st : State) :
  message (fst (snd (session inputs st))) =
    message (fst st) ++ flat_map turn_messages (fst (session inputs st)).
Proof.
  revert st. induction inputs as [|i l IH]; intros st.
  - cbn. now rewrite app_nil_r.
  - rewrite session_cons. cbn [fst snd flat_map].
    rewrite IH, turn_history, app_assoc. reflexivity.
Qed.

Lemma session_replies (inputs : list string) (st : State) :
  Forall (fun t => exists r, reply t = Ok r) (fst (session inputs st)).
Proof.
  revert st. induction inputs as [|i l IH]; intros st.
  - constructor.
  - rewrite session_cons. constructor; [apply turn_reply | apply IH].
Qed.

(** The history only grows: what it held before a run of calls is a prefix
    of what it holds after. *)
Lemma session_history_prefix (inputs : list string) (st : State) :
  message (fst st) `prefix_of` message (fst (snd (session inputs st))).
Proof. rewrite session_history. now eexists. Qed.

Lemma init_history (uo ug : bool) (w : World) :
  message (fst (__init__ uo ug w)) = [system_message].
Proof. reflexivity. Qed.

(** What a run of calls that all succeed leaves in the history. *)
Lemma session_all_succeeded (inputs : list string) (st : State) :
  forallb succeeded (fst (session inputs st)) = true ->
  exists replies,
    map reply (fst (session inputs st)) = map Ok replies /\
    length replies = length inputs /\
    flat_map turn_messages (fst (session inputs st)) =
      flat_map exchange (combine inputs replies).
Proof.
  revert st. induction inputs as [|i l IH]; intros st.
  - intros _. exists []. repeat split.
  - rewrite session_cons. cbn [fst forallb].
    intros [Hi Hl]%andb_true_iff.
    destruct (IH _ Hl) as (rs & Hrs & Hlen & Hflat).
    destruct (turn_reply i st) as [r Hr].
    exists (r :: rs). cbn [map length combine flat_map].
    rewrite Hrs, Hr, Hlen, Hflat. repeat split.
    unfold turn_messages at 1. rewrite Hr, Hi.
    unfold turn. reflexivity.
Qed.

Lemma flat_map_exchange_length (l : list (string * string)) :
  length (flat_map exchange l) = 2 * length l.
Proof. induction l as [|p l IH]; cbn [flat_map length app exchange]; lia. Qed.

Lemma flat_map_turn_messages_length (turns : list Turn) :
  Forall (fun t => exists r, reply t = Ok r) turns ->
  length (flat_map turn_messages turns) =
    2 * length (List.filter succeeded turns) +
    length (List.filter (fun t => negb (succeeded t)) turns).
Proof.
  induction 1 as [|t l [r Hr] _ IH]; [reflexivity|].
  cbn [flat_map List.filter]. rewrite length_app, IH.
  unfold turn_messages. rewrite Hr.
  destruct (succeeded t); cbn [negb length]; lia.
Qed.

Lemma succeeded_or_failed (turns : list Turn) :
  length (List.filter succeeded turns) +
  length (List.filter (fun t => negb (succeeded t)) turns) = length turns.
Proof.
  induction turns as [|t l IH]; [reflexivity|].
  cbn [List.filter]. destruct (succeeded t); cbn [negb length]; lia.
Qed.

(** Brings the log and the requests of the state after a call to the form
    [before ++ new]. *)
Ltac trace_shape :=
  unfold logged, dispatched; cbn [events];
  rewrite ?log_of_app, ?requests_of_app;
  cbn [log_of requests_of]; rewrite <- ?app_assoc;
  cbn [app].

(** Brings the requests seen by the backend, in the hypotheses and the
    goal, to the form [before ++ new]. *)
Ltac requests_shape :=
  unfold dispatched in *; cbn [events] in *;
  rewrite ?requests_of_app in *; cbn [requests_of] in *;
  rewrite ?app_nil_r in *; rewrite <- ?app_assoc in *; cbn [app] in *.

(** An error of the backend is an error of the [try] block: a failing
    [chat.completions.create] ... *)
Lemma create_raises (user_input : string) (self : Chatbot) (w : World)
    (e : Exception) :
  use_gemini self = false ->
  completions_create (dispatched w) (client self) (model_name self)
    (message self ++ [user_message user_input]) = Raise e ->
  fst (chat_try user_input (self, w)) = Raise e.
Proof.
  intros Hg He. unfold user_message in He. unfold_chat.
  rewrite Hg. cbn [fst snd message client model_name events].
  unfold dispatched in *. cbn [events]. rewrite log_free_requests.
  now rewrite He.
Qed.

(** ... a failing [send_message] ... *)
Lemma send_message_raises (user_input : string) (self : Chatbot) (w : World)
    (e : Exception) :
  use_gemini self = true ->
  start_chat (dispatched w) (client self) [] = Ok tt ->
  send_message (dispatched w ++ [call_start_chat (client self) []])
    (client self) user_input = Raise e ->
  fst (chat_try user_input (self, w)) = Raise e.
Proof.
  intros Hg Hs He. unfold_chat.
  rewrite Hg. cbn [fst snd message client model_name events].
  unfold dispatched in *. cbn [events].
  rewrite log_free_requests, Hs. cbn [fst snd events].
  rewrite requests_of_app, log_free_requests. cbn [requests_of].
  now rewrite He.
Qed.

(** ... and an empty list of choices. *)
Lemma no_choice_raises (user_input : string) (self : Chatbot) (w : World)
    (response : ChatCompletion) :
  use_gemini self = false ->
  completions_create (dispatched w) (client self) (model_name self)
    (message self ++ [user_message user_input]) = Ok response ->
  choices response = [] ->
  fst (chat_try user_input (self, w)) =
    Raise {| exc_type := "IndexError";
             exc_message := "list index out of range" |}.
Proof.
  intros Hg He Hc. unfold user_message in He. unfold_chat.
  rewrite Hg. cbn [fst snd message client model_name events].
  unfold dispatched in *. cbn [events]. rewrite log_free_requests.
  rewrite He. cbn [fst snd]. now rewrite Hc.
Qed.

(** On the completion variants, a response with a first choice and a
    usage that is not [None] makes the call return that choice. *)
Lemma first_choice_is_returned (user_input : string) (self : Chatbot)
    (w : World) (response : ChatCompletion) (c : string) (rest : list string) :
  use_gemini self = false ->
  completions_create (dispatched w) (client self) (model_name self)
    (message self ++ [user_message user_input]) = Ok response ->
  choices response = c :: rest ->
  usage response <> usage_None ->
  fst (chat_try user_input (self, w)) = Ok c /\
  fst (chat user_input (self, w)) = Ok c.
Proof.
  intros Hg He Hc Hu. unfold user_message in He. unfold_chat.
  rewrite Hg. cbn [fst snd message client model_name events negb andb].
  unfold dispatched in *. cbn [events]. rewrite log_free_requests.
  rewrite He. cbn [fst snd]. rewrite Hc.
  cbn [fst snd use_gemini negb andb].
  destruct (usage response); [| contradiction |]; split; reflexivity.
Qed.

(** A response whose [usage] is [None] fails the call after the reply was
    extracted: [response.usage.total_tokens] raises, and [chat] takes the
    [except] branch. *)
Lemma usage_None_is_an_error (user_input : string) (self : Chatbot)
    (w : World) (response : ChatCompletion) (c : string) (rest : list string) :
  use_gemini self = false ->
  completions_create (dispatched w) (client self) (model_name self)
    (message self ++ [user_message user_input]) = Ok response ->
  choices response = c :: rest ->
  usage response = usage_None ->
  fst (chat_try user_input (self, w)) =
    Raise {| exc_type := "AttributeError";
             exc_message :=
               "'NoneType' object has no attribute 'total_tokens'" |}.
Proof.
  intros Hg He Hc Hu. unfold user_message in He. unfold_chat.
  rewrite Hg. cbn [fst snd message client model_name events negb andb].
  unfold dispatched in *. cbn [events]. rewrite log_free_requests.
  rewrite He. cbn [fst snd]. rewrite Hc.
  cbn [fst snd use_gemini negb andb]. rewrite Hu. reflexivity.
Qed.

(** On the completion variants a call makes one request, with
    [self.model_name] and the history up to the new user message. *)
Lemma completion_request (user_input : string) (st : State) :
  use_gemini (fst st) = false ->
  dispatched (snd (snd (chat user_input st))) =
    dispatched (snd st) ++
    [call_create (client (fst st)) (model_name (fst st))
       (message (fst st) ++ [user_message user_input])].
Proof.
  destruct st as [self w]. unfold user_message. cbn [fst snd]. intros Hg.
  chat_cases; try discriminate Hg.
  all: trace_shape; reflexivity.
Qed.

(** A call only adds to the trace of events. *)
Lemma chat_events_extend (user_input : string) (st : State) :
  exists new,
    events (snd (snd (chat user_input st))) = events (snd st) ++ new.
Proof.
  destruct st as [self w]. chat_cases.
  all: eexists; cbn [events]; rewrite <- ?app_assoc; reflexivity.
Qed.

Lemma session_events_extend (inputs : list string) (st : State) :
  exists new,
    events (snd (snd (session inputs st))) = events (snd st) ++ new.
Proof.
  revert st. induction inputs as [|i l IH]; intros st.
  - exists []. cbn. now rewrite app_nil_r.
  - rewrite session_cons. cbn [snd].
    destruct (IH (snd (turn i st))) as [new2 ->].
    destruct (chat_events_extend i st) as [new1 Hnew1].
    unfold turn. cbn [snd]. rewrite Hnew1, <- app_assoc. now eexists.
Qed.

Lemma session_requests_extend (inputs : list string) (st : State) :
  exists new,
    dispatched (snd (snd (session inputs st))) = dispatched (snd st) ++ new.
Proof.
  destruct (session_events_extend inputs st) as [new Hnew].
  exists (requests_of new). unfold dispatched.
  now rewrite Hnew, requests_of_app.
Qed.

(** ** The claims *)

(** C10. After any run of calls on a new [Chatbot], S of which succeeded
    and F of which failed, in any interleaving, the history has length
    1 + 2S + F: it is the system message followed, for each call in order,
    by its user message and, when the call succeeded, by its assistant
    message. *)
Theorem history_length_counts_turns
    (uo ug : bool) (w : World) (inputs : list string) :
  let run := session inputs (__init__ uo ug w) in
  let history := message (fst (snd run)) in
  let S := length (List.filter succeeded (fst run)) in
  let F := length (List.filter (fun t => negb (succeeded t)) (fst run)) in
  length history = 1 + 2 * S + F /\
  S + F = length inputs /\
  history = system_message :: flat_map turn_messages (fst run) /\
  Forall (fun t => exists r,
            reply t = Ok r /\
            turn_messages t =
              if succeeded t
              then [user_message (turn_input t); assistant_message r]
              else [user_message (turn_input t)])
         (fst run).
Proof.
  cbv zeta.
  pose proof (session_replies inputs (__init__ uo ug w)) as Hrep.
  rewrite session_history, init_history. cbn [app length].
  rewrite (flat_map_turn_messages_length _ Hrep).
  repeat split.
  - rewrite succeeded_or_failed.
    rewrite <- (session_inputs inputs (__init__ uo ug w)) at 2.
    now rewrite length_map.
  - eapply Forall_impl; [exact Hrep|].
    intros t [r Hr]. exists r. split; [exact Hr|].
    unfold turn_messages. now rewrite Hr.
Qed.

(** After N calls on a new [Chatbot] whose [try] blocks all reach their
    [return], the history has length 1 + 2N, starts with the system
    message and holds, for each call in order, its user message immediately
    followed by its assistant message; and at every point of the run the
    history is a prefix of the final one (it is appended to, never
    reordered or shortened). *)
Theorem history_after_successful_calls
    (uo ug : bool) (w : World) (inputs : list string) :
  let run := session inputs (__init__ uo ug w) in
  let history := message (fst (snd run)) in
  forallb succeeded (fst run) = true ->
  exists replies,
    map reply (fst run) = map Ok replies /\
    length replies = length inputs /\
    length history = 1 + 2 * length inputs /\
    head history = Some system_message /\
    history = system_message :: flat_map exchange (combine inputs replies) /\
    forall k,
      message (fst (snd (session (take k inputs) (__init__ uo ug w))))
        `prefix_of` history.
Proof.
  cbv zeta. intros Hall.
  destruct (session_all_succeeded _ _ Hall) as (rs & Hrs & Hlen & Hflat).
  exists rs. rewrite session_history, init_history, Hflat.
  cbn [app length head].
  rewrite flat_map_exchange_length, length_combine, Hlen, Nat.min_id.
  repeat split; try assumption.
  intros k. rewrite <- Hflat.
  change (system_message :: flat_map turn_messages
            (fst (session inputs (__init__ uo ug w))))
    with ([system_message] ++ flat_map turn_messages
            (fst (session inputs (__init__ uo ug w)))).
  rewrite <- (init_history uo ug w), <- session_history.
  rewrite <- (take_drop k inputs) at 2.
  rewrite session_app. cbn [snd].
  apply session_history_prefix.
Qed.


(** Every call of [chat] makes exactly two calls on the logger: one
    with a record of type [user_input], and one with a record that is
    either of type [model_response] or of type [error], never both and
    never neither. *)
Theorem chat_logs_input_and_one_outcome (user_input : string) (st : State) :
  exists new,
    logged (snd (snd (chat user_input st))) = logged (snd st) ++ new /\
    length new = 2 /\
    count_type "user_input" new = 1 /\
    count_type "model_response" new + count_type "error" new = 1.
Proof.
  destruct st as [self w]. chat_cases.
  all: eexists; split; [trace_shape; reflexivity|].
  all: repeat split.
Qed.

(** C3. When the [try] block of [chat] raises an error [e], [chat] does not
    raise: it returns a string that contains [str(e)]; it logs, after the
    [user_input] record, exactly one record, at level ERROR and of type
    [error], with [str(e)], the session id, the user id and the model name;
    and the history is the one before the call followed by the user
    message. *)
Theorem chat_error_is_caught
    (user_input : string) (st : State) (e : Exception) :
  fst (chat_try user_input st) = Raise e ->
  let self := fst st in
  let st' := snd (chat user_input st) in
  exists answer record_in record_err,
    fst (chat user_input st) = Ok answer /\
    contains answer (str e) /\
    logged (snd st') = logged (snd st) ++ [record_in; record_err] /\
    has_type "user_input" record_in = true /\
    count_type "error" [record_in; record_err] = 1 /\
    levelno record_err = ERROR /\
    get "level" (entry record_err) = Some (JStr "ERROR") /\
    get "type" (entry record_err) = Some (JStr "error") /\
    get "error_message" (entry record_err) = Some (JStr (str e)) /\
    metadata "session_id" (entry record_err) = Some (JStr (session_id self)) /\
    metadata "user_id" (entry record_err) = Some (JStr (user_id self)) /\
    metadata "model" (entry record_err) = Some (JStr (model_name self)) /\
    message (fst st') = message self ++ [user_message user_input].
Proof.
  destruct st as [self w]. cbv zeta. intros Hraise.
  rewrite (chat_try_raise _ _ _ Hraise). revert Hraise.
  chat_cases.
  all: intros Hraise; try discriminate Hraise; injection Hraise as <-.
  all: do 3 eexists; split; [reflexivity|].
  all: split; [apply contains_suffix|].
  all: split; [trace_shape; reflexivity|].
  all: repeat split.
Qed.

(** A call on the generative variant opens an exchange with
    [history=[]] and, once it is open, sends the input text alone; nothing
    else is requested, and the reply of a successful call is the text of
    that response.  A call on the other variants makes one request, with
    [self.model_name] and the whole history up to and including the new
    user message, and the reply of a successful call is the content of the
    first choice of the response. *)
Theorem chat_dispatches_by_variant (user_input : string) (st : State) :
  let self := fst st in
  let before := dispatched (snd st) in
  let after := dispatched (snd (snd (chat user_input st))) in
  (use_gemini self = true ->
     let opening := call_start_chat (client self) [] in
     (exists sent,
        after = before ++ opening :: sent /\
        (sent = [] \/ sent = [call_send_message (client self) user_input]) /\
        (start_chat before (client self) [] = Ok tt ->
         sent = [call_send_message (client self) user_input])) /\
     forall r, fst (chat_try user_input st) = Ok r ->
       exists response,
         send_message (before ++ [opening]) (client self) user_input =
           Ok response /\
         text response = Ok r /\
         fst (chat user_input st) = Ok r) /\
  (use_gemini self = false ->
     let context := message self ++ [user_message user_input] in
     after = before ++ [call_create (client self) (model_name self) context] /\
     forall r, fst (chat_try user_input st) = Ok r ->
       exists response,
         completions_create before (client self) (model_name self) context =
           Ok response /\
         head (choices response) = Some r /\
         fst (chat user_input st) = Ok r).
Proof.
  destruct st as [self w]. cbv zeta. unfold user_message.
  cbn [fst snd]. split; intros Hg.
  - chat_cases; try discriminate Hg.
    all: requests_shape.
    all: split;
      [eexists; split; [trace_shape; reflexivity|];
       split; [auto|]; intros Hs; try reflexivity; congruence
      |intros r Hr; try discriminate Hr; injection Hr as <-].
    all: match goal with u : unit |- _ => destruct u end.
    all: eexists; repeat split; eassumption.
  - chat_cases; try discriminate Hg.
    all: requests_shape.
    all: split; [trace_shape; reflexivity|].
    all: intros r Hr; try discriminate Hr; injection Hr as <-.
    all: eexists; split; [eassumption|].
    all: match goal with Hc : choices _ = _ |- _ => rewrite Hc end.
    all: split; reflexivity.
Qed.


(** The first thing a call does is to log its [user_input] record, built
    from the clock and the object alone; no other record of that type
    follows. *)
Lemma chat_first_event (user_input : string) (self : Chatbot) (w : World) :
  exists later,
    events (snd (snd (chat user_input (self, w)))) =
      events w ++
      Logged {| levelno := INFO;
                entry := user_input_entry (clock (ticks w)) self |} :: later /\
    count_type "user_input" (log_of later) = 0.
Proof.
  chat_cases.
  all: eexists; split; [cbn [events]; rewrite <- ?app_assoc; reflexivity|].
  all: reflexivity.
Qed.

(** C8. The [user_input] record of a call is logged at level INFO before
    anything is sent to the backend; it is built from the clock reading and
    from the session id, the user id and the model name of the object, and
    from nothing else: for two calls on objects with the same three values,
    whatever the two input texts, the records are equal once their
    timestamps are erased. *)
Theorem user_input_record_hides_text
    (u1 u2 : string) (self1 self2 : Chatbot) (w1 w2 : World) :
  session_id self1 = session_id self2 ->
  user_id self1 = user_id self2 ->
  model_name self1 = model_name self2 ->
  exists c1 c2 later1 later2,
    events (snd (snd (chat u1 (self1, w1)))) =
      events w1 ++ Logged c1 :: later1 /\
    events (snd (snd (chat u2 (self2, w2)))) =
      events w2 ++ Logged c2 :: later2 /\
    count_type "user_input" (c1 :: log_of later1) = 1 /\
    count_type "user_input" (c2 :: log_of later2) = 1 /\
    has_type "user_input" c1 = true /\
    has_type "user_input" c2 = true /\
    levelno c1 = INFO /\
    levelno c2 = INFO /\
    entry c1 = user_input_entry (clock (ticks w1)) self1 /\
    entry c2 = user_input_entry (clock (ticks w2)) self2 /\
    metadata "session_id" (entry c1) = Some (JStr (session_id self1)) /\
    metadata "user_id" (entry c1) = Some (JStr (user_id self1)) /\
    metadata "model" (entry c1) = Some (JStr (model_name self1)) /\
    set_key "timestamp" JNull (entry c1) =
      set_key "timestamp" JNull (entry c2).
Proof.
  intros Hs Hu Hm.
  destruct (chat_first_event u1 self1 w1) as (later1 & Hev1 & Hno1).
  destruct (chat_first_event u2 self2 w2) as (later2 & Hev2 & Hno2).
  do 2 eexists. exists later1, later2.
  split; [exact Hev1|]. split; [exact Hev2|].
  unfold count_type in *. cbn [List.filter].
  change (has_type "user_input"
            {| levelno := INFO;
               entry := user_input_entry (clock (ticks w1)) self1 |})
    with true.
  change (has_type "user_input"
            {| levelno := INFO;
               entry := user_input_entry (clock (ticks w2)) self2 |})
    with true.
  cbn [length]. rewrite Hno1, Hno2.
  repeat split.
  cbn [entry]. unfold user_input_entry. rewrite Hs, Hu, Hm. reflexivity.
Qed.

(** The object that [__init__] sets up for a menu choice, when the handle
    is built: the choice fixes the two flags, the handle and the model
    name: "1" gives the OpenAI client on its default endpoint with
    "gpt-4o-mini", "2" the client on the local endpoint with "llama3.2:8b",
    "3" the generative handle (built for "gemini-2.5-flash") with the model
    name "gemini-1.5-flash"; and for any choice they are the same whatever
    the state of the process. *)
Theorem menu_choice_selects_backend (w : World) :
  let bot choice := fst (main_chatbot choice w) in
  (use_ollama (bot "1") = false /\
   use_gemini (bot "1") = false /\
   client (bot "1") = OpenAI None (getenv "OPEN_API_KEY") /\
   model_name (bot "1") = "gpt-4o-mini") /\
  (use_ollama (bot "2") = true /\
   use_gemini (bot "2") = false /\
   client (bot "2") =
     OpenAI (Some "http://localhost:11434/v1") (Some "ollama") /\
   model_name (bot "2") = "llama3.2:8b") /\
  (use_ollama (bot "3") = false /\
   use_gemini (bot "3") = true /\
   client (bot "3") =
     GenerativeModel (getenv "GEMINI_API_KEY") "gemini-2.5-flash" /\
   model_name (bot "3") = "gemini-1.5-flash") /\
  (forall choice w',
     use_ollama (fst (main_chatbot choice w')) = use_ollama (bot choice) /\
     use_gemini (fst (main_chatbot choice w')) = use_gemini (bot choice) /\
     client (fst (main_chatbot choice w')) = client (bot choice) /\
     model_name (fst (main_chatbot choice w')) = model_name (bot choice)).
Proof.
  cbv zeta. repeat split.
Qed.

(** The menu loop ends only on one of the three choices. *)
Lemma read_choice_valid (lines : list string) (choice : string) :
  read_choice lines = Some choice ->
  choice = "1" \/ choice = "2" \/ choice = "3".
Proof.
  induction lines as [|l lines IH]; [discriminate|].
  cbn [read_choice]. destruct (valid_choice l) eqn:Hv; [|exact IH].
  intros [= <-]. unfold valid_choice in Hv.
  apply orb_true_iff in Hv as [Hv|Hv]; [apply orb_true_iff in Hv as [Hv|Hv]|].
  all: apply String.eqb_eq in Hv; auto.
Qed.

(** On the completion variants the model requested is the model logged. *)
Lemma completion_model_is_logged (user_input : string) (st : State) :
  use_gemini (fst st) = false ->
  Forall (fun c => invoked_model c = Some (model_name (fst st)))
    (drop (length (dispatched (snd st)))
       (dispatched (snd (snd (chat user_input st))))).
Proof.
  intros Hg. rewrite (completion_request user_input st Hg).
  rewrite drop_app_length. repeat constructor.
Qed.

(** C5. On the generative variant the two differ: every request of a call
    runs the model "gemini-2.5-flash" that [initialize_client] built the
    handle with, while [self.model_name], which every record of the call
    logs, is "gemini-1.5-flash". *)
Theorem gemini_logs_another_model
    (uo : bool) (w : World) (user_input : string) :
  let st := __init__ uo true w in
  let st' := snd (chat user_input st) in
  (exists key, client (fst st) = GenerativeModel key "gemini-2.5-flash") /\
  model_name (fst st) = "gemini-1.5-flash" /\
  Forall (fun c => invoked_model c = Some "gemini-2.5-flash")
    (drop (length (dispatched (snd st))) (dispatched (snd st'))) /\
  Forall (fun c => metadata "model" (entry c) = Some (JStr "gemini-1.5-flash"))
    (drop (length (logged (snd st))) (logged (snd st'))).
Proof.
  cbv zeta. split; [eexists; reflexivity|]. split; [reflexivity|].
  destruct (__init__ uo true w) as [self w0] eqn:Hinit.
  assert (Hc : client self =
               GenerativeModel (getenv "GEMINI_API_KEY") "gemini-2.5-flash")
    by (injection Hinit as <- _; reflexivity).
  assert (Hm : model_name self = "gemini-1.5-flash")
    by (injection Hinit as <- _; reflexivity).
  assert (Hg : use_gemini self = true)
    by (injection Hinit as <- _; reflexivity).
  clear Hinit. cbn [fst snd].
  chat_cases; try discriminate Hg.
  all: trace_shape; rewrite !drop_app_length.
  all: rewrite ?Hc.
  all: split; repeat constructor.
  all: cbn [entry];
       unfold user_input_entry, model_response_entry, error_entry;
       cbn [model_name]; rewrite Hm; reflexivity.
Qed.

(** X18. Which identifiers the records of a call carry: all carry the session
    id; the [user_input] and [error] records carry the user id, the
    [model_response] record has no such key. *)
Lemma record_identifiers (user_input : string) (st : State) :
  Forall (fun c =>
            metadata "session_id" (entry c) =
              Some (JStr (session_id (fst st))) /\
            metadata "user_id" (entry c) =
              if has_type "model_response" c then None
              else Some (JStr (user_id (fst st))))
    (drop (length (logged (snd st)))
       (logged (snd (snd (chat user_input st))))).
Proof.
  destruct st as [self w]. cbn [fst snd].
  chat_cases.
  all: trace_shape; rewrite drop_app_length.
  all: repeat constructor.
Qed.

(** X17. The identifiers drawn by [__init__] stay: a run of calls changes
    neither of them, nor the model name, and draws no new one. *)
Lemma session_keeps_identifiers (inputs : list string) (st : State) :
  let st' := snd (session inputs st) in
  session_id (fst st') = session_id (fst st) /\
  user_id (fst st') = user_id (fst st) /\
  model_name (fst st') = model_name (fst st) /\
  drawn (snd st') = drawn (snd st).
Proof.
  cbv zeta. revert st. induction inputs as [|i l IH]; intros st.
  - repeat split.
  - rewrite session_cons. cbn [snd].
    destruct (IH (snd (turn i st))) as (-> & -> & -> & ->).
    destruct (chat_frame i st) as (Hs & Hu & _ & _ & _ & Hm & Hd).
    unfold turn. cbn [snd]. auto.
Qed.

(** [__init__] draws the two identifiers, one after the other. *)
Lemma init_identifiers (uo ug : bool) (w : World) :
  session_id (fst (__init__ uo ug w)) = uuid4 (drawn w) /\
  user_id (fst (__init__ uo ug w)) = uuid4 (S (drawn w)) /\
  drawn (snd (__init__ uo ug w)) = S (S (drawn w)).
Proof. repeat split. Qed.

(** X16. On the generative variant every exchange opened during a run of
    calls starts from an empty history, and no request carries the history
    of the object. *)
Lemma gemini_requests (inputs : list string) (st : State) :
  use_gemini (fst st) = true ->
  Forall (fun c =>
            match c with
            | call_start_chat _ history => history = []
            | call_send_message _ content => In content inputs
            | call_create _ _ _ => False
            end)
    (drop (length (dispatched (snd st)))
       (dispatched (snd (snd (session inputs st))))).
Proof.
  revert st. induction inputs as [|i l IH]; intros st Hg.
  - cbn [session snd]. rewrite drop_all. constructor.
  - rewrite session_cons. cbn [snd].
    assert (Hone :
      exists sent,
        dispatched (snd (snd (turn i st))) = dispatched (snd st) ++ sent /\
        Forall (fun c =>
                  match c with
                  | call_start_chat _ history => history = []
                  | call_send_message _ content => content = i
                  | call_create _ _ _ => False
                  end) sent).
    { destruct st as [self w]. cbn [fst snd] in *.
      chat_cases; try discriminate Hg.
      all: eexists; split; [trace_shape; reflexivity|].
      all: repeat constructor. }
    destruct Hone as (sent & Hsent & Hforall).
    assert (Hg' : use_gemini (fst (snd (turn i st))) = true).
    { unfold turn. cbn [snd].
      destruct (chat_frame i st) as (_ & _ & _ & _ & -> & _). exact Hg. }
    specialize (IH _ Hg').
    destruct (session_requests_extend l (snd (turn i st))) as [more Hmore].
    rewrite Hmore, drop_app_length in IH.
    rewrite Hmore, Hsent, <- app_assoc, drop_app_length.
    apply Forall_app. split.
    + eapply Forall_impl; [exact Hforall|].
      intros [c h|c t|c m ms]; cbn [In]; auto.
    + eapply Forall_impl; [exact IH|].
      intros [c h|c t|c m ms]; cbn [In]; auto.
Qed.

End Properties.

(** The scenario of the local backend: two turns, both answered. *)
Lemma history_after_successful_calls_witness :
  exists replies,
    map reply (fst (@session hi_there ["hello"; "and again"]
                      (@__init__ hi_there true false fresh_world))) =
      map Ok replies /\
    length replies = 2 /\
    length (message (fst (snd (@session hi_there ["hello"; "and again"]
                      (@__init__ hi_there true false fresh_world))))) = 5 /\
    head (message (fst (snd (@session hi_there ["hello"; "and again"]
                      (@__init__ hi_there true false fresh_world))))) =
      Some (@system_message) /\
    message (fst (snd (@session hi_there ["hello"; "and again"]
                      (@__init__ hi_there true false fresh_world)))) =
      system_message ::
        flat_map exchange (combine ["hello"; "and again"] replies) /\
    forall k,
      message (fst (snd (@session hi_there (take k ["hello"; "and again"])
                      (@__init__ hi_there true false fresh_world))))
        `prefix_of`
      message (fst (snd (@session hi_there ["hello"; "and again"]
                      (@__init__ hi_there true false fresh_world)))).
Proof.
  apply (@history_after_successful_calls hi_there true false fresh_world
           ["hello"; "and again"]).
  reflexivity.
Defined.

(** The failure scenario: the backend raises "rate limited". *)
Lemma chat_error_is_caught_witness :
  exists answer record_in record_err,
    fst (@chat rate_limited "hello"
           (@__init__ rate_limited true false fresh_world)) = Ok answer /\
    contains answer "rate limited" /\
    logged (snd (snd (@chat rate_limited "hello"
                        (@__init__ rate_limited true false fresh_world)))) =
      [record_in; record_err] /\
    has_type "user_input" record_in = true /\
    count_type "error" [record_in; record_err] = 1 /\
    levelno record_err = ERROR /\
    get "level" (entry record_err) = Some (JStr "ERROR") /\
    get "type" (entry record_err) = Some (JStr "error") /\
    get "error_message" (entry record_err) = Some (JStr "rate limited") /\
    metadata "session_id" (entry record_err) = Some (JStr "6f1c5a52-session") /\
    metadata "user_id" (entry record_err) = Some (JStr "0b9d3e17-user") /\
    metadata "model" (entry record_err) = Some (JStr "llama3.2:8b") /\
    message (fst (snd (@chat rate_limited "hello"
                         (@__init__ rate_limited true false fresh_world)))) =
      [system_message; user_message "hello"].
Proof.
  apply (@chat_error_is_caught rate_limited "hello"
           (@__init__ rate_limited true false fresh_world)
           {| exc_type := "RateLimitError"; exc_message := "rate limited" |}).
  reflexivity.
Defined.

(** C4. The identifiers are drawn once, by [__init__], and no call changes
    them ([init_identifiers], [session_keeps_identifiers]); but not every
    record carries both.  A successful first call on the local backend logs
    two records: the [user_input] record carries the user id, the
    [model_response] record carries the session id and no user id. *)
Theorem model_response_record_lacks_user_id :
  let st := @__init__ hi_there true false fresh_world in
  exists record_in record_out,
    logged (snd (snd (@chat hi_there "hello" st))) =
      [record_in; record_out] /\
    has_type "user_input" record_in = true /\
    metadata "session_id" (entry record_in) =
      Some (JStr (session_id (fst st))) /\
    metadata "user_id" (entry record_in) = Some (JStr (user_id (fst st))) /\
    has_type "model_response" record_out = true /\
    metadata "session_id" (entry record_out) =
      Some (JStr (session_id (fst st))) /\
    metadata "user_id" (entry record_out) = None.
Proof. cbv zeta. do 2 eexists. repeat split. Qed.

(** "hello" on the generative variant and on the local variant. *)
Lemma chat_dispatches_by_variant_witness :
  let gemini := @__init__ hi_there false true fresh_world in
  let ollama := @__init__ hi_there true false fresh_world in
  ((exists sent,
      dispatched (snd (snd (@chat hi_there "hello" gemini))) =
        [] ++ call_start_chat (client (fst gemini)) [] :: sent /\
      (sent = [] \/
       sent = [call_send_message (client (fst gemini)) "hello"]) /\
      (Ok tt = Ok tt ->
       sent = [call_send_message (client (fst gemini)) "hello"])) /\
   forall r, fst (@chat_try hi_there "hello" gemini) = Ok r ->
     exists response,
       Ok {| text := Ok "hi there" |} = Ok response /\
       text response = Ok r /\
       fst (@chat hi_there "hello" gemini) = Ok r) /\
  (dispatched (snd (snd (@chat hi_there "hello" ollama))) =
     [call_create (client (fst ollama)) "llama3.2:8b"
        [system_message; user_message "hello"]] /\
   forall r, fst (@chat_try hi_there "hello" ollama) = Ok r ->
     exists response,
       Ok {| choices := ["hi there"]; usage := usage_missing |} =
         Ok response /\
       head (choices response) = Some r /\
       fst (@chat hi_there "hello" ollama) = Ok r).
Proof.
  cbv zeta. split.
  - apply (proj1 (@chat_dispatches_by_variant hi_there "hello"
                    (@__init__ hi_there false true fresh_world))).
    reflexivity.
  - apply (proj2 (@chat_dispatches_by_variant hi_there "hello"
                    (@__init__ hi_there true false fresh_world))).
    reflexivity.
Defined.


(** Two calls in a row on the same object, with different texts. *)
Lemma user_input_record_hides_text_witness :
  let st1 := @__init__ hi_there true false fresh_world in
  let st2 := snd (@chat hi_there "hello" st1) in
  exists c1 c2 later1 later2,
    events (snd (snd (@chat hi_there "hello" st1))) =
      events (snd st1) ++ Logged c1 :: later1 /\
    events (snd (snd (@chat hi_there "my card number is 4111" st2))) =
      events (snd st2) ++ Logged c2 :: later2 /\
    count_type "user_input" (c1 :: log_of later1) = 1 /\
    count_type "user_input" (c2 :: log_of later2) = 1 /\
    has_type "user_input" c1 = true /\
    has_type "user_input" c2 = true /\
    levelno c1 = INFO /\
    levelno c2 = INFO /\
    entry c1 = @user_input_entry hi_there 0%Z (fst st1) /\
    entry c2 = @user_input_entry hi_there 4000000%Z (fst st2) /\
    metadata "session_id" (entry c1) = Some (JStr "6f1c5a52-session") /\
    metadata "user_id" (entry c1) = Some (JStr "0b9d3e17-user") /\
    metadata "model" (entry c1) = Some (JStr "llama3.2:8b") /\
    set_key "timestamp" JNull (entry c1) =
      set_key "timestamp" JNull (entry c2).
Proof.
  cbv zeta.
  apply (@user_input_record_hides_text hi_there
           "hello" "my card number is 4111"
           (fst (@__init__ hi_there true false fresh_world))
           (fst (snd (@chat hi_there "hello"
                        (@__init__ hi_there true false fresh_world))))
           (snd (@__init__ hi_there true false fresh_world))
           (snd (snd (@chat hi_there "hello"
                        (@__init__ hi_there true false fresh_world))))).
  all: reflexivity.
Defined.

(** ** The end-to-end scenarios *)

(** Choice "2", "hello", a backend that replies "hi there": [chat] returns
    "hi there", the history is the system message and the exchange, and the
    log holds a [user_input] record, then a [model_response] record without
    a token count. *)
Example local_scenario :
  let st := @main_chatbot hi_there "2" fresh_world in
  let st' := snd (@chat hi_there "hello" st) in
  fst (@chat hi_there "hello" st) = Ok "hi there" /\
  message (fst st') =
    [system_message; user_message "hello"; assistant_message "hi there"] /\
  map (fun c => get "type" (entry c)) (logged (snd st')) =
    [Some (JStr "user_input"); Some (JStr "model_response")] /\
  map (fun c => metadata "tokens_used" (entry c)) (logged (snd st')) =
    [None; Some JNull].
Proof. repeat split. Qed.

(** Choice "3" and two turns: both exchanges are opened with an empty
    history, and the history of the object holds both turns. *)
Example generative_scenario :
  let st := @main_chatbot hi_there "3" fresh_world in
  let st' := snd (@session hi_there ["hello"; "and again"] st) in
  dispatched (snd st') =
    [call_start_chat (client (fst st)) [];
     call_send_message (client (fst st)) "hello";
     call_start_chat (client (fst st)) [];
     call_send_message (client (fst st)) "and again"] /\
  length (message (fst st')) = 5.
Proof. repeat split. Qed.

(** A backend that raises "rate limited": [chat] returns the apology, and
    one [error] record is logged with that message. *)
Example failure_scenario :
  let st := @main_chatbot rate_limited "2" fresh_world in
  let st' := snd (@chat rate_limited "hello" st) in
  fst (@chat rate_limited "hello" st) =
    Ok "Sorry, something evil happened in the universe: rate limited" /\
  map (fun c => (levelno c, get "error_message" (entry c)))
      (logged (snd st')) =
    [(INFO, None); (ERROR, Some (JStr "rate limited"))] /\
  message (fst st') = [system_message; user_message "hello"].
Proof. repeat split. Qed.

(** * Further properties of [chat] and of runs of calls *)

(** Brings the log and the requests after a call to the form
    [before ++ new], in the goal. *)
Ltac shape :=
  unfold logged, dispatched; cbn [events];
  rewrite ?log_of_app, ?requests_of_app;
  cbn [log_of requests_of]; rewrite <- ?app_assoc;
  cbn [app].

Section Runs.

Context `{Environment}.

(** The two records of a call: the [user_input] record, then a
    [model_response] record at INFO when the [try] block returned and an
    [error] record at ERROR when it raised. *)
Lemma chat_log_shape (user_input : string) (st : State) :
  exists c1 c2,
    logged (snd (snd (chat user_input st))) = logged (snd st) ++ [c1; c2] /\
    levelno c1 = INFO /\
    has_type "user_input" c1 = true /\
    has_type "model_response" c1 = false /\
    has_type "error" c1 = false /\
    has_type "user_input" c2 = false /\
    has_type "model_response" c2 = is_Ok (fst (chat_try user_input st)) /\
    has_type "error" c2 = negb (is_Ok (fst (chat_try user_input st))) /\
    levelno c2 = if is_Ok (fst (chat_try user_input st)) then INFO else ERROR.
Proof.
  destruct st as [self w]. chat_cases.
  all: do 2 eexists; split; [shape; reflexivity|].
  all: repeat split.
Qed.

(** What [chat] returns when the [try] block raises. *)
Lemma chat_apology (user_input : string) (st : State) (e : Exception) :
  fst (chat_try user_input st) = Raise e ->
  fst (chat user_input st) =
    Ok (String.append "Sorry, something evil happened in the universe: "
          (str e)).
Proof.
  destruct st as [self w]. chat_cases.
  all: intros Hr; try discriminate Hr; injection Hr as <-; reflexivity.
Qed.

Lemma count_type_app (t : string) (l1 l2 : list LogCall) :
  count_type t (l1 ++ l2) = count_type t l1 + count_type t l2.
Proof. unfold count_type. now rewrite List.filter_app, length_app. Qed.

Lemma session_log_extend (inputs : list string) (st : State) :
  exists new,
    logged (snd (snd (session inputs st))) = logged (snd st) ++ new.
Proof.
  destruct (session_events_extend inputs st) as [new Hnew].
  exists (log_of new). unfold logged. now rewrite Hnew, log_of_app.
Qed.

Lemma turn_frame (user_input : string) (st : State) :
  client (fst (snd (turn user_input st))) = client (fst st) /\
  use_gemini (fst (snd (turn user_input st))) = use_gemini (fst st) /\
  model_name (fst (snd (turn user_input st))) = model_name (fst st).
Proof.
  unfold turn. cbn [snd].
  destruct (chat_frame user_input st) as (_ & _ & Hc & _ & Hg & Hm & _).
  auto.
Qed.

(** *** Edge answers of the completion backend *)

(** X1. A completion response that has a first choice but whose [usage] is
    [None] fails the call: the reply is lost, [chat] returns the apology
    for the [AttributeError], the second record is an [error] record, and
    the history gains the user message only. *)
Theorem usage_None_loses_the_reply
    (user_input : string) (self : Chatbot) (w : World)
    (response : ChatCompletion) (c : string) (rest : list string) :
  use_gemini self = false ->
  completions_create (dispatched w) (client self) (model_name self)
    (message self ++ [user_message user_input]) = Ok response ->
  choices response = c :: rest ->
  usage response = usage_None ->
  let st' := snd (chat user_input (self, w)) in
  fst (chat user_input (self, w)) =
    Ok (String.append "Sorry, something evil happened in the universe: "
          "'NoneType' object has no attribute 'total_tokens'") /\
  message (fst st') = message self ++ [user_message user_input] /\
  count_type "model_response"
    (drop (length (logged w)) (logged (snd st'))) = 0 /\
  count_type "error" (drop (length (logged w)) (logged (snd st'))) = 1.
Proof.
  intros Hg He Hc Hu. cbv zeta.
  pose proof (usage_None_is_an_error _ _ _ _ _ _ Hg He Hc Hu) as Hraise.
  split; [exact (chat_apology _ _ _ Hraise)|].
  split; [exact (chat_try_raise _ _ _ Hraise)|].
  destruct (chat_log_shape user_input (self, w))
    as (c1 & c2 & Hlog & _ & _ & Hm1 & He1 & _ & Hm2 & He2 & _).
  cbn [snd] in Hlog. rewrite Hlog, drop_app_length.
  rewrite Hraise in Hm2, He2. cbn [is_Ok negb] in Hm2, He2.
  unfold count_type. cbn [List.filter]. rewrite Hm1, He1, Hm2, He2.
  split; reflexivity.
Qed.

(** X2. A completion response without choices fails the call with the
    [IndexError] of [choices[0]]: [chat] returns its apology and the history
    gains the user message only. *)
Theorem empty_choices_apology
    (user_input : string) (self : Chatbot) (w : World)
    (response : ChatCompletion) :
  use_gemini self = false ->
  completions_create (dispatched w) (client self) (model_name self)
    (message self ++ [user_message user_input]) = Ok response ->
  choices response = [] ->
  fst (chat user_input (self, w)) =
    Ok (String.append "Sorry, something evil happened in the universe: "
          "list index out of range") /\
  message (fst (snd (chat user_input (self, w)))) =
    message self ++ [user_message user_input].
Proof.
  intros Hg He Hc.
  pose proof (no_choice_raises _ _ _ _ Hg He Hc) as Hraise.
  split; [exact (chat_apology _ _ _ Hraise)|].
  exact (chat_try_raise _ _ _ Hraise).
Qed.

(** *** What the completion backend is sent over a run *)

Lemma turn_request (user_input : string) (st : State) :
  use_gemini (fst st) = false ->
  dispatched (snd (snd (turn user_input st))) =
    dispatched (snd st) ++
    [call_create (client (fst st)) (model_name (fst st))
       (message (fst st) ++ [user_message user_input])].
Proof. intros Hg. unfold turn. cbn [snd]. now apply completion_request. Qed.

(** X3. On the completion variants a run of calls makes one request per
    call, each with the history as the calls before it left it (the user
    message of a failed call included) followed by the new user message. *)
Theorem completion_contexts (inputs : list string) (st : State) :
  use_gemini (fst st) = false ->
  dispatched (snd (snd (session inputs st))) =
    dispatched (snd st) ++
    map (call_create (client (fst st)) (model_name (fst st)))
      (contexts (message (fst st)) (fst (session inputs st))).
Proof.
  revert st. induction inputs as [|i l IH]; intros st Hg.
  - cbn. now rewrite app_nil_r.
  - rewrite session_cons. cbn [fst snd contexts map].
    destruct (turn_frame i st) as (Hc & Hg' & Hm).
    rewrite IH by (now rewrite Hg').
    rewrite Hc, Hm, turn_request, turn_history by exact Hg.
    rewrite <- app_assoc. reflexivity.
Qed.

(** X4. After a call that failed, the next call on a completion variant
    sends the unanswered user message again: its context ends with the two
    user messages in a row. *)
Theorem failed_input_stays_in_context
    (first second : string) (st : State) (e : Exception) :
  use_gemini (fst st) = false ->
  fst (chat_try first st) = Raise e ->
  let st1 := snd (chat first st) in
  dispatched (snd (snd (chat second st1))) =
    dispatched (snd st1) ++
    [call_create (client (fst st)) (model_name (fst st))
       (message (fst st) ++ [user_message first; user_message second])].
Proof.
  intros Hg Hraise. cbv zeta.
  destruct (chat_frame first st) as (_ & _ & Hc & _ & Hg' & Hm & _).
  cbv zeta in Hc, Hg', Hm.
  rewrite completion_request by (now rewrite Hg').
  rewrite Hc, Hm, (chat_try_raise _ _ _ Hraise), <- app_assoc.
  reflexivity.
Qed.

(** *** Invariants of a run *)

Lemma answers_after_turns (turns : list Turn) (after_user : bool) :
  answers_follow_questions after_user (flat_map turn_messages turns) = true.
Proof.
  revert after_user. induction turns as [|t l IH]; intros b; [reflexivity|].
  cbn [flat_map]. unfold turn_messages at 1.
  destruct (reply t) as [r|e]; [|apply IH].
  destruct (succeeded t); cbn; apply IH.
Qed.

(** X5. In the history of a new [Chatbot] after any run of calls, every
    assistant message comes right after a user message, and the system
    message is the first and only one with that role. *)
Theorem history_answers_follow_questions
    (uo ug : bool) (w : World) (inputs : list string) :
  let history := message (fst (snd (session inputs (__init__ uo ug w)))) in
  answers_follow_questions false history = true /\
  head history = Some system_message /\
  Forall (fun m => role m = "user" \/ role m = "assistant") (tail history).
Proof.
  cbv zeta. rewrite session_history, init_history. cbn [app head tail].
  split; [apply answers_after_turns|]. split; [reflexivity|].
  pose proof (session_replies inputs (__init__ uo ug w)) as Hrep.
  induction Hrep as [|t l [r Hr] _ IH]; [constructor|].
  cbn [flat_map]. apply Forall_app. split; [|exact IH].
  unfold turn_messages. rewrite Hr.
  destruct (succeeded t).
  all: repeat first [apply Forall_nil_2 | apply Forall_cons_2; [cbn; auto|]].
Qed.

(** X6. A run of N calls, S of which succeeded and F of which failed, makes
    2N calls on the logger: N [user_input] records, S [model_response]
    records and F [error] records. *)
Theorem session_log_counts (inputs : list string) (st : State) :
  let run := session inputs st in
  let new := drop (length (logged (snd st))) (logged (snd (snd run))) in
  length new = 2 * length inputs /\
  count_type "user_input" new = length inputs /\
  count_type "model_response" new =
    length (List.filter succeeded (fst run)) /\
  count_type "error" new =
    length (List.filter (fun t => negb (succeeded t)) (fst run)).
Proof.
  cbv zeta. revert st. induction inputs as [|i l IH]; intros st.
  - cbn [session fst snd]. rewrite drop_all. repeat split.
  - rewrite session_cons. cbn [fst snd].
    destruct (session_log_extend l (snd (turn i st))) as [more Hmore].
    specialize (IH (snd (turn i st))).
    rewrite Hmore, drop_app_length in IH.
    destruct IH as (Hlen & Hin & Hok & Herr).
    destruct (chat_log_shape i st)
      as (c1 & c2 & Hlog & _ & Hi1 & Hm1 & He1 & Hi2 & Hm2 & He2 & _).
    assert (Hturn : logged (snd (snd (turn i st))) =
                    logged (snd st) ++ [c1; c2]) by exact Hlog.
    rewrite Hmore, Hturn, <- app_assoc, drop_app_length.
    rewrite !count_type_app, length_app, Hlen, Hin, Hok, Herr.
    unfold count_type. cbn [List.filter].
    rewrite Hi1, Hm1, He1, Hi2, Hm2, He2.
    unfold turn. cbn [fst succeeded List.filter length].
    destruct (is_Ok (fst (chat_try i st))); cbn [negb length app];
      repeat split; lia.
Qed.

(** Whether the handle of an object is of the kind that its flag says. *)
Lemma init_kind (uo ug : bool) (w : World) :
  match client (fst (__init__ uo ug w)) with
  | GenerativeModel _ _ => use_gemini (fst (__init__ uo ug w)) = true
  | OpenAI _ _ => use_gemini (fst (__init__ uo ug w)) = false
  end.
Proof. destruct uo, ug; reflexivity. Qed.

Lemma turn_well_addressed (user_input : string) (st : State) :
  match client (fst st) with
  | GenerativeModel _ _ => use_gemini (fst st) = true
  | OpenAI _ _ => use_gemini (fst st) = false
  end ->
  exists sent,
    dispatched (snd (snd (turn user_input st))) = dispatched (snd st) ++ sent /\
    forallb well_addressed sent = true.
Proof.
  destruct st as [self w]. cbn [fst snd]. intros Hkind.
  destruct (client self) eqn:Hc.
  all: chat_cases; try discriminate Hkind.
  all: eexists; split; [shape; reflexivity|].
  all: rewrite ?Hc; reflexivity.
Qed.

(** X7. Whatever the two flags given to [__init__] (both may be set), every
    request of every later call goes to a handle of its kind: the
    generative methods to the generative model, [create] to an OpenAI
    client. *)
Theorem requests_well_addressed
    (uo ug : bool) (w : World) (inputs : list string) :
  let st := __init__ uo ug w in
  forallb well_addressed
    (drop (length (dispatched (snd st)))
       (dispatched (snd (snd (session inputs st))))) = true.
Proof.
  cbv zeta. pose proof (init_kind uo ug w) as Hkind.
  generalize dependent (__init__ uo ug w). clear uo ug w.
  intros st Hkind. revert st Hkind.
  induction inputs as [|i l IH]; intros st Hkind.
  - cbn [session snd]. now rewrite drop_all.
  - rewrite session_cons. cbn [snd].
    destruct (turn_well_addressed i st Hkind) as (sent & Hsent & Hok).
    destruct (turn_frame i st) as (Hc & Hg & _).
    assert (Hkind' :
      match client (fst (snd (turn i st))) with
      | GenerativeModel _ _ => use_gemini (fst (snd (turn i st))) = true
      | OpenAI _ _ => use_gemini (fst (snd (turn i st))) = false
      end) by (now rewrite Hc, Hg).
    specialize (IH _ Hkind').
    destruct (session_requests_extend l (snd (turn i st))) as [more Hmore].
    rewrite Hmore, drop_app_length in IH.
    rewrite Hmore, Hsent, <- app_assoc, drop_app_length, forallb_app.
    now rewrite Hok, IH.
Qed.


End Runs.

(** * Properties of [main] *)

Section MainLoop.

Context `{Environment} `{StrMethods}.

Lemma printed_app (l1 l2 : list Output) :
  printed (l1 ++ l2) = printed l1 ++ printed l2.
Proof. unfold printed. apply flat_map_app. Qed.

Lemma menu_first_choice
    (bad : list string) (good : string) (rest : list string)
    (out : list Output) :
  Forall (fun line => valid_choice (strip line) = false) bad ->
  valid_choice (strip good) = true ->
  menu (bad ++ good :: rest) out =
    (Ok (strip good), rest,
     out ++
     flat_map (fun _ => [prompt "enter choice (1, 2, or 3): ";
                         print "Please enter 1, 2, or 3"]) bad ++
     [prompt "enter choice (1, 2, or 3): "]).
Proof.
  intros Hbad Hgood. revert out.
  induction Hbad as [|line bad Hline _ IH]; intros out.
  - cbn [app menu flat_map]. now rewrite Hgood.
  - cbn [app menu flat_map]. rewrite Hline, IH, <- !app_assoc. reflexivity.
Qed.

(** X9. The menu asks again, with "Please enter 1, 2, or 3", once for each
    line that is not a choice, and takes the first line that strips to "1",
    "2" or "3"; the lines after it are left for the chat loop. *)
Theorem menu_reprompts
    (bad : list string) (good : string) (rest : list string)
    (out : list Output) :
  Forall (fun line => valid_choice (strip line) = false) bad ->
  valid_choice (strip good) = true ->
  menu (bad ++ good :: rest) out =
    (Ok (strip good), rest,
     out ++
     flat_map (fun _ => [prompt "enter choice (1, 2, or 3): ";
                         print "Please enter 1, 2, or 3"]) bad ++
     [prompt "enter choice (1, 2, or 3): "]).
Proof. apply menu_first_choice. Qed.

Lemma menu_exhausted (lines : list string) (out : list Output) :
  Forall (fun line => valid_choice (strip line) = false) lines ->
  fst (fst (menu lines out)) = Raise EOFError.
Proof.
  intros Hbad. revert out.
  induction Hbad as [|line bad Hline _ IH]; intros out; [reflexivity|].
  cbn [menu]. rewrite Hline. apply IH.
Qed.

(** X10. When no line typed is a choice, [main] ends with the [EOFError] of
    [input] and has constructed no [Chatbot]. *)
Theorem main_without_choice (lines : list string) (w : World) :
  Forall (fun line => valid_choice (strip line) = false) lines ->
  fst (main lines w) = (Raise EOFError, None).
Proof.
  intros Hbad. unfold main.
  pose proof (menu_exhausted lines
    [print (String.append nl "Select Model Type:");
     print "1. OpenAI GPT-4"; print "2. Ollama Llama 3.2";
     print "3. Google Gemini"] Hbad) as Hmenu.
  destruct (menu lines _) as [[r left] out]. cbn [fst] in Hmenu.
  now subst r.
Qed.

Lemma chat_loop_state
    (lines : list string) (st : State) (out : list Output) :
  snd (fst (chat_loop lines st out)) = snd (session (turns_typed lines) st).
Proof.
  revert st out. induction lines as [|line rest IH]; intros st out.
  - reflexivity.
  - cbn [chat_loop turns_typed].
    destruct (String.eqb (lower (strip line)) "exit"); [reflexivity|].
    destruct (String.eqb (strip line) ""); [apply IH|].
    rewrite session_cons. cbn [snd]. unfold turn. cbn [snd].
    destruct (chat_returns (strip line) st) as [r Hr].
    destruct (chat (strip line) st) as [res st']. cbn [fst snd] in *.
    subst res. apply IH.
Qed.

Lemma chat_loop_result
    (lines : list string) (st : State) (out : list Output) :
  fst (fst (chat_loop lines st out)) =
    if exit_typed lines then Ok tt else Raise EOFError.
Proof.
  revert st out. induction lines as [|line rest IH]; intros st out.
  - reflexivity.
  - unfold exit_typed in *. cbn [chat_loop existsb].
    destruct (String.eqb (lower (strip line)) "exit"); [reflexivity|].
    cbn [orb].
    destruct (String.eqb (strip line) ""); [apply IH|].
    destruct (chat_returns (strip line) st) as [r Hr].
    destruct (chat (strip line) st) as [res st']. cbn [fst] in Hr.
    subst res. apply IH.
Qed.

Lemma chat_loop_printed
    (lines : list string) (st : State) (out : list Output) :
  printed (snd (chat_loop lines st out)) =
    printed out ++
    flat_map bot_line (fst (session (turns_typed lines) st)) ++
    (if exit_typed lines then ["Goodbye!"] else []).
Proof.
  revert st out. induction lines as [|line rest IH]; intros st out.
  - cbn [chat_loop snd turns_typed session fst flat_map exit_typed existsb].
    rewrite printed_app. reflexivity.
  - unfold exit_typed in *. cbn [chat_loop turns_typed existsb].
    destruct (String.eqb (lower (strip line)) "exit").
    { cbn [snd session fst flat_map orb]. rewrite !printed_app.
      cbn. now rewrite <- app_assoc. }
    cbn [orb].
    destruct (String.eqb (strip line) "").
    { rewrite IH, printed_app. cbn. now rewrite app_nil_r. }
    rewrite session_cons. cbn [fst flat_map].
    unfold bot_line at 1. unfold turn. cbn [fst snd reply].
    destruct (chat_returns (strip line) st) as [r Hr].
    destruct (chat (strip line) st) as [res st']. cbn [fst snd] in *.
    subst res. rewrite IH, !printed_app. cbn. rewrite app_nil_r.
    now rewrite <- !app_assoc.
Qed.

(** X11. The chat loop calls [chat], on the same object and in order, on
    exactly the stripped non-blank lines typed before the first "exit"; it
    prints one "Bot:" line per call, with the reply of that call; and it
    ends with "Goodbye!" when "exit" is typed and with the [EOFError] of
    [input] otherwise, never with an error of the backend. *)
Theorem chat_loop_runs_session
    (lines : list string) (st : State) (out : list Output) :
  let run := session (turns_typed lines) st in
  snd (fst (chat_loop lines st out)) = snd run /\
  fst (fst (chat_loop lines st out)) =
    (if exit_typed lines then Ok tt else Raise EOFError) /\
  printed (snd (chat_loop lines st out)) =
    printed out ++ flat_map bot_line (fst run) ++
    (if exit_typed lines then ["Goodbye!"] else []).
Proof.
  cbv zeta. split; [apply chat_loop_state|].
  split; [apply chat_loop_result | apply chat_loop_printed].
Qed.


End MainLoop.

(** * Properties of [setup_logging] *)

Section Logging.

Context `{Environment}.

Lemma file_records_app (f : string) (d1 d2 : list (Handler * LogCall)) :
  file_records f (d1 ++ d2) = file_records f d1 ++ file_records f d2.
Proof. unfold file_records. now rewrite List.filter_app, map_app. Qed.

Lemma delivered_app (root_level : Z) (logger : Logger)
    (l1 l2 : list LogCall) :
  delivered root_level logger (l1 ++ l2) =
    delivered root_level logger l1 ++ delivered root_level logger l2.
Proof. unfold delivered. apply flat_map_app. Qed.

(** After k calls of [setup_logging] the logger still has no level of its
    own, and a record that it hands on reaches the file k times. *)
Lemma setup_logging_iter (k : nat) (c : LogCall) :
  logger_level (Nat.iter k setup_logging new_logger) = NOTSET /\
  file_records "chatbot_logs.json"
    (map (fun h => (h, c))
       (List.filter
          (fun h => Z.leb (handler_level h) (level_number (levelno c)))
          (handlers (Nat.iter k setup_logging new_logger)))) =
    repeat c k.
Proof.
  induction k as [|k [IHl IHf]]; [split; reflexivity|].
  rewrite Nat.iter_succ. split; [exact IHl|].
  unfold setup_logging at 1. cbn [handlers].
  rewrite List.filter_app, map_app, file_records_app, IHf.
  change (repeat c (S k)) with (c :: repeat c k).
  rewrite repeat_cons. f_equal.
  destruct (levelno c); reflexivity.
Qed.

Lemma handle_file_records (root_level : Z) (k : nat) (c : LogCall) :
  file_records "chatbot_logs.json"
    (handle root_level (Nat.iter k setup_logging new_logger) c) =
    if Z.leb root_level (level_number (levelno c)) then repeat c k else [].
Proof.
  destruct (setup_logging_iter k c) as [Hl Hf].
  unfold handle, isEnabledFor, getEffectiveLevel. rewrite Hl. cbn [Z.eqb NOTSET].
  destruct (Z.leb root_level (level_number (levelno c))); [exact Hf|reflexivity].
Qed.

(** X13. [setup_logging] adds its two handlers to the one logger "Chatbot"
    each time it runs: in a process that has constructed k [Chatbot]s, every
    record that passes the level is written k times to chatbot_logs.json. *)
Theorem setup_logging_accumulates
    (root_level : Z) (k : nat) (calls : list LogCall) :
  let logger := Nat.iter k setup_logging new_logger in
  length (handlers logger) = 2 * k /\
  file_records "chatbot_logs.json" (delivered root_level logger calls) =
    flat_map
      (fun c => if Z.leb root_level (level_number (levelno c))
                then repeat c k else [])
      calls.
Proof.
  cbv zeta. split.
  - induction k as [|k IH]; [reflexivity|].
    rewrite Nat.iter_succ. unfold setup_logging at 1. cbn [handlers].
    rewrite length_app, IH. cbn [length]. lia.
  - induction calls as [|c l IH]; [reflexivity|].
    unfold delivered in *. cbn [flat_map].
    rewrite file_records_app, IH, handle_file_records. reflexivity.
Qed.

(** In the log of a run, the [error] records are the records at ERROR. *)
Lemma session_log_levels (inputs : list string) (st : State) :
  Forall (fun c => has_type "error" c =
                   match levelno c with ERROR => true | INFO => false end)
    (drop (length (logged (snd st)))
       (logged (snd (snd (session inputs st))))).
Proof.
  revert st. induction inputs as [|i l IH]; intros st.
  - cbn [session snd]. rewrite drop_all. constructor.
  - rewrite session_cons. cbn [snd].
    destruct (session_log_extend l (snd (turn i st))) as [more Hmore].
    specialize (IH (snd (turn i st))).
    rewrite Hmore, drop_app_length in IH.
    destruct (chat_log_shape i st)
      as (c1 & c2 & Hlog & Hl1 & _ & _ & He1 & _ & _ & He2 & Hl2).
    assert (Hturn : logged (snd (snd (turn i st))) =
                    logged (snd st) ++ [c1; c2]) by exact Hlog.
    rewrite Hmore, Hturn, <- app_assoc, drop_app_length.
    cbn [app]. constructor; [now rewrite He1, Hl1|].
    constructor; [|exact IH].
    rewrite He2, Hl2. now destruct (is_Ok (fst (chat_try i st))).
Qed.

Lemma error_count (inputs : list string) (st : State) :
  count_type "error"
    (drop (length (logged (snd st)))
       (logged (snd (snd (session inputs st))))) =
    length (List.filter (fun t => negb (succeeded t))
              (fst (session inputs st))).
Proof.
  revert st. induction inputs as [|i l IH]; intros st.
  - cbn [session fst snd]. now rewrite drop_all.
  - rewrite session_cons. cbn [fst snd].
    destruct (session_log_extend l (snd (turn i st))) as [more Hmore].
    specialize (IH (snd (turn i st))).
    rewrite Hmore, drop_app_length in IH.
    destruct (chat_log_shape i st)
      as (c1 & c2 & Hlog & _ & _ & _ & He1 & _ & _ & He2 & _).
    assert (Hturn : logged (snd (snd (turn i st))) =
                    logged (snd st) ++ [c1; c2]) by exact Hlog.
    rewrite Hmore, Hturn, <- app_assoc, drop_app_length.
    rewrite count_type_app, IH. unfold count_type. cbn [List.filter].
    rewrite He1, He2. unfold turn. cbn [fst succeeded].
    destruct (is_Ok (fst (chat_try i st))); reflexivity.
Qed.

(** X14. With the root logger at WARNING, as the library starts it and as
    nothing in this file changes it, the INFO calls of [chat] reach no
    handler: of the records of a run, chatbot_logs.json receives the
    [error] records only, one per failed call, and nothing at all from a run
    whose calls all succeed. *)
Theorem default_level_drops_info (inputs : list string) (st : State) :
  let run := session inputs st in
  let new := drop (length (logged (snd st))) (logged (snd (snd run))) in
  let written :=
    file_records "chatbot_logs.json"
      (delivered WARNING (setup_logging new_logger) new) in
  written = List.filter (has_type "error") new /\
  length written =
    length (List.filter (fun t => negb (succeeded t)) (fst run)) /\
  (forallb succeeded (fst run) = true -> written = []).
Proof.
  cbv zeta.
  pose proof (session_log_levels inputs st) as Hlev.
  pose proof (error_count inputs st) as Hcount.
  set (new := drop _ _) in *. clearbody new.
  assert (Hw : file_records "chatbot_logs.json"
                 (delivered WARNING (setup_logging new_logger) new) =
               List.filter (has_type "error") new).
  { clear Hcount. induction Hlev as [|c l Hc _ IH]; [reflexivity|].
    unfold delivered in *. cbn [flat_map List.filter].
    rewrite file_records_app, IH, Hc.
    destruct (levelno c) eqn:Hl; unfold handle, isEnabledFor;
      rewrite Hl; reflexivity. }
  rewrite Hw. split; [reflexivity|]. split; [exact Hcount|].
  intros Hall. apply length_zero_iff_nil. revert Hall.
  unfold count_type in Hcount. rewrite Hcount. clear.
  induction (fst (session inputs st)) as [|t l IH]; intros Hall;
    [reflexivity|].
  cbn [forallb] in Hall. apply andb_true_iff in Hall as [Ht Hl].
  cbn [List.filter]. rewrite Ht. cbn [negb]. now apply IH.
Qed.

(** X15. When the root logger is at INFO or lower, chatbot_logs.json
    receives every record of a run once and in order: two per call. *)
Theorem info_level_writes_all
    (root_level : Z) (inputs : list string) (st : State) :
  (root_level <= 20)%Z ->
  let new :=
    drop (length (logged (snd st)))
      (logged (snd (snd (session inputs st)))) in
  file_records "chatbot_logs.json"
    (delivered root_level (setup_logging new_logger) new) = new.
Proof.
  intros Hroot. cbv zeta.
  generalize (drop (length (logged (snd st)))
                (logged (snd (snd (session inputs st))))).
  intros new. induction new as [|c l IH]; [reflexivity|].
  unfold delivered in *. cbn [flat_map]. rewrite file_records_app, IH.
  unfold handle, isEnabledFor, getEffectiveLevel.
  cbn [setup_logging new_logger logger_level handlers NOTSET Z.eqb].
  replace (Z.leb root_level (level_number (levelno c))) with true
    by (symmetry; apply Z.leb_le; destruct (levelno c); cbn; lia).
  destruct (levelno c); reflexivity.
Qed.

End Logging.

(** * Instances on the stub environments *)

(** "hello" to a cloud completion backend whose response has no usage
    object. *)
Lemma usage_None_loses_the_reply_witness :
  let st := @__init__ usage_is_None false false fresh_world in
  let st' := snd (@chat usage_is_None "hello" st) in
  fst (@chat usage_is_None "hello" st) =
    Ok (String.append "Sorry, something evil happened in the universe: "
          "'NoneType' object has no attribute 'total_tokens'") /\
  message (fst st') = message (fst st) ++ [user_message "hello"] /\
  count_type "model_response"
    (drop (length (logged (snd st))) (logged (snd st'))) = 0 /\
  count_type "error"
    (drop (length (logged (snd st))) (logged (snd st'))) = 1.
Proof.
  cbv zeta.
  apply (@usage_None_loses_the_reply usage_is_None "hello"
           (fst (@__init__ usage_is_None false false fresh_world))
           (snd (@__init__ usage_is_None false false fresh_world))
           {| choices := ["hi there"]; usage := usage_None |}
           "hi there" []).
  all: reflexivity.
Defined.

(** "hello" to a backend whose response has no choice. *)
Lemma empty_choices_apology_witness :
  let st := @__init__ no_choices true false fresh_world in
  fst (@chat no_choices "hello" st) =
    Ok (String.append "Sorry, something evil happened in the universe: "
          "list index out of range") /\
  message (fst (snd (@chat no_choices "hello" st))) =
    message (fst st) ++ [user_message "hello"].
Proof.
  cbv zeta.
  apply (@empty_choices_apology no_choices "hello"
           (fst (@__init__ no_choices true false fresh_world))
           (snd (@__init__ no_choices true false fresh_world))
           {| choices := []; usage := usage_missing |}).
  all: reflexivity.
Defined.

(** Two turns on the local backend. *)
Lemma completion_contexts_witness :
  let st := @__init__ hi_there true false fresh_world in
  dispatched (snd (snd (@session hi_there ["hello"; "and again"] st))) =
    dispatched (snd st) ++
    map (call_create (client (fst st)) (model_name (fst st)))
      (contexts (message (fst st))
         (fst (@session hi_there ["hello"; "and again"] st))).
Proof.
  cbv zeta.
  apply (@completion_contexts hi_there ["hello"; "and again"]
           (@__init__ hi_there true false fresh_world)).
  reflexivity.
Defined.

(** A turn that fails on the cloud completion backend, then another. *)
Lemma failed_input_stays_in_context_witness :
  let st := @__init__ rate_limited false false fresh_world in
  let st1 := snd (@chat rate_limited "hello" st) in
  dispatched (snd (snd (@chat rate_limited "are you there" st1))) =
    dispatched (snd st1) ++
    [call_create (client (fst st)) (model_name (fst st))
       (message (fst st) ++
        [user_message "hello"; user_message "are you there"])].
Proof.
  cbv zeta.
  apply (@failed_input_stays_in_context rate_limited
           "hello" "are you there"
           (@__init__ rate_limited false false fresh_world)
           {| exc_type := "RateLimitError"; exc_message := "rate limited" |}).
  all: reflexivity.
Defined.


(** Two turns on the generative variant. *)
Lemma gemini_requests_witness :
  let st := @__init__ hi_there false true fresh_world in
  Forall (fun c =>
            match c with
            | call_start_chat _ history => history = []
            | call_send_message _ content =>
                In content ["hello"; "and again"]
            | call_create _ _ _ => False
            end)
    (drop (length (dispatched (snd st)))
       (dispatched (snd (snd (@session hi_there ["hello"; "and again"] st))))).
Proof.
  cbv zeta.
  apply (@gemini_requests hi_there ["hello"; "and again"]
           (@__init__ hi_there false true fresh_world)).
  reflexivity.
Defined.

(** An empty line, "4", then " 2 ". *)
Lemma menu_reprompts_witness :
  @menu ascii_methods [""; "4"; " 2 "; "exit"] [] =
    (Ok "2", ["exit"],
     [prompt "enter choice (1, 2, or 3): "; print "Please enter 1, 2, or 3";
      prompt "enter choice (1, 2, or 3): "; print "Please enter 1, 2, or 3";
      prompt "enter choice (1, 2, or 3): "]).
Proof.
  apply (@menu_reprompts ascii_methods [""; "4"] " 2 " ["exit"] []).
  - repeat constructor.
  - reflexivity.
Defined.

(** Two lines, neither of them a choice. *)
Lemma main_without_choice_witness :
  fst (@main hi_there ascii_methods ["x"; "0"] fresh_world) =
    (Raise EOFError, None).
Proof.
  apply (@main_without_choice hi_there ascii_methods ["x"; "0"] fresh_world).
  repeat constructor.
Defined.


(** One answered turn at the default level: the file receives nothing. *)
Lemma default_level_drops_info_witness :
  let st := @__init__ hi_there true false fresh_world in
  file_records "chatbot_logs.json"
    (delivered WARNING (setup_logging new_logger)
       (drop (length (logged (snd st)))
          (logged (snd (snd (@session hi_there ["hello"] st)))))) = [].
Proof.
  cbv zeta.
  apply (proj2 (proj2 (@default_level_drops_info hi_there ["hello"]
                         (@__init__ hi_there true false fresh_world)))).
  reflexivity.
Defined.

(** One answered turn with the root logger at DEBUG. *)
Lemma info_level_writes_all_witness :
  let st := @__init__ hi_there true false fresh_world in
  let new := drop (length (logged (snd st)))
               (logged (snd (snd (@session hi_there ["hello"] st)))) in
  file_records "chatbot_logs.json"
    (delivered 10 (setup_logging new_logger) new) = new.
Proof.
  cbv zeta.
  apply (@info_level_writes_all hi_there 10 ["hello"]
           (@__init__ hi_there true false fresh_world)).
  lia.
Defined.

(** * The claims that the code breaks or that need amending *)

(** C1. Two calls on the local variant, to a server whose responses have a
    first choice and [usage = None]: neither call raises during dispatch or
    reply extraction, yet both take the [except] branch, at the
    [tokens_used] entry of the [model_response] record, and the history
    holds 1 + N messages, not 1 + 2N. *)
Theorem answered_calls_leave_no_assistant_message :
  let st := @__init__ usage_is_None true false fresh_world in
  let st1 := snd (@chat usage_is_None "hello" st) in
  let run := @session usage_is_None ["hello"; "and again"] st in
  is_Ok (fst (@ask usage_is_None "hello" st)) = true /\
  is_Ok (fst (@ask usage_is_None "and again" st1)) = true /\
  map succeeded (fst run) = [false; false] /\
  message (fst (snd run)) =
    [system_message; user_message "hello"; user_message "and again"] /\
  length (message (fst (snd run))) <> 1 + 2 * 2.
Proof. cbv zeta. repeat split. discriminate. Qed.

(** C2. With the logger as [setup_logging] leaves it and the root logger at
    WARNING, an answered call makes its two calls on the logger and no
    handler receives either record; of a failed call the two handlers
    receive the [error] record, and no [user_input] record. *)
Theorem info_records_reach_no_handler :
  let logger := setup_logging new_logger in
  let answered :=
    logged (snd (snd (@chat hi_there "hello"
                        (@__init__ hi_there true false fresh_world)))) in
  let failed :=
    logged (snd (snd (@chat rate_limited "hello"
                        (@__init__ rate_limited true false fresh_world)))) in
  map (fun c => get "type" (entry c)) answered =
    [Some (JStr "user_input"); Some (JStr "model_response")] /\
  delivered WARNING logger answered = [] /\
  map (fun c => get "type" (entry c)) failed =
    [Some (JStr "user_input"); Some (JStr "error")] /\
  map (fun p => (sink (fst p), get "type" (entry (snd p))))
      (delivered WARNING logger failed) =
    [(FileHandler "chatbot_logs.json", Some (JStr "error"));
     (StreamHandler, Some (JStr "error"))].
Proof. cbv zeta. repeat split. Qed.

(** C6. "hello" on the local variant, to a server whose response has the
    first choice "hi there" and [usage = None]: the whole history is sent,
    the response comes back, and what [chat] returns is the apology for the
    [AttributeError], not the text of the first choice. *)
Theorem first_choice_is_not_returned :
  let st := @__init__ usage_is_None true false fresh_world in
  let context := [system_message; user_message "hello"] in
  dispatched (snd (snd (@chat usage_is_None "hello" st))) =
    [call_create (client (fst st)) "llama3.2:8b" context] /\
  (exists response,
     @completions_create usage_is_None [] (client (fst st)) "llama3.2:8b"
       context = Ok response /\
     head (choices response) = Some "hi there") /\
  fst (@chat usage_is_None "hello" st) =
    Ok (String.append "Sorry, something evil happened in the universe: "
          "'NoneType' object has no attribute 'total_tokens'") /\
  fst (@chat usage_is_None "hello" st) <> Ok "hi there".
Proof.
  cbv zeta. split; [reflexivity|].
  split; [eexists; split; reflexivity|].
  split; [reflexivity|discriminate].
Qed.



